(** * Home-hospital scheduling back end: assignment and scheduling core

    A shallow embedding of [src/services/timeSlotOptimizer.js],
    [src/services/geoUtils.js] and the reassignment handler of
    [src/routes/assignments.js], followed by the properties established
    about them.

    Conventions of the embedding.
    - JavaScript numbers that hold counts, minutes and identifiers are [Z]
      or [nat]; the value [NaN] is [None] in [option Z].  Coordinates and
      distances are real numbers ([R]): the rounding of binary64 arithmetic
      is not modelled.
    - [null] and [undefined] are [None].
    - Objects used as dictionaries are [gmap string _] of their own keys.
      In the code a lookup [table[key]] also finds the members inherited
      from [Object.prototype] (["constructor"], ["toString"], ...), which
      are functions and not numbers; the tables of the embedding agree
      with the code on every other key, and the properties of the table
      lookups are stated for those keys ([own_key] below).
    - The Supabase client is a table store together with a plan of the
      outcomes of the coming calls; every [await supabase...] consumes one
      outcome.  Time stamps ([updated_at], [assignment_date]) are left out
      of the rows. *)

From Stdlib Require Import ZArith List String Ascii Bool Lia Reals Lra.
From Stdlib Require Import Permutation DecimalString.
From stdpp Require Import gmap strings.
Import ListNotations.

Open Scope string_scope.
Open Scope Z_scope.

(** ** JavaScript built-ins used by the services *)

Module JS.

(** [String.prototype.toLowerCase], on ASCII letters. *)
Definition lower_ascii (c : ascii) : ascii :=
  let n := nat_of_ascii c in
  if ((65 <=? n) && (n <=? 90))%nat then ascii_of_nat (n + 32) else c.

Fixpoint toLowerCase (s : string) : string :=
  match s with
  | EmptyString => EmptyString
  | String c s' => String (lower_ascii c) (toLowerCase s')
  end.

(** [s.includes(t)]: [t] occurs in [s] as a contiguous run. *)
Fixpoint includes (s t : string) : bool :=
  String.prefix t s ||
  match s with
  | EmptyString => false
  | String _ s' => includes s' t
  end.

(** [s.split(sep)] for a one-character separator. *)
Fixpoint split (sep : ascii) (s : string) : list string :=
  match s with
  | EmptyString => [EmptyString]
  | String c s' =>
      if Ascii.eqb c sep then EmptyString :: split sep s'
      else match split sep s' with
           | [] => [String c EmptyString]
           | w :: ws => String c w :: ws
           end
  end.

Definition digit_of (c : ascii) : option Z :=
  let n := nat_of_ascii c in
  if ((48 <=? n) && (n <=? 57))%nat then Some (Z.of_nat (n - 48)) else None.

Fixpoint digits (acc : Z) (s : string) : option Z :=
  match s with
  | EmptyString => Some acc
  | String c s' =>
      match digit_of c with
      | Some d => digits (10 * acc + d) s'
      | None => None
      end
  end.

(** [Number(s)] on the strings that reach it in this program: a run of
    decimal digits is its value and the empty string is 0; every other
    string is [NaN].  (Signs, exponents, fractions, hexadecimal and
    surrounding white space, which [Number] also accepts, never occur in
    a time of day.) *)
Definition Number (s : string) : option Z := digits 0 s.

(** [n.toString()] on an integer; [NaN] prints as ["NaN"]. *)
Definition toString (n : option Z) : string :=
  match n with
  | Some z => NilZero.string_of_int (Z.to_int z)
  | None => "NaN"
  end.

(** [s.padStart(2, '0')]. *)
Definition padStart2 (s : string) : string :=
  match s with
  | EmptyString => "00"
  | String c EmptyString => String "0" (String c EmptyString)
  | _ => s
  end.

(** Arithmetic with [NaN] absorbing. *)
Definition lift2 (f : Z -> Z -> Z) (a b : option Z) : option Z :=
  match a, b with
  | Some x, Some y => Some (f x y)
  | _, _ => None
  end.

(** [a > b]: false as soon as one side is [NaN]. *)
Definition gt (a b : option Z) : bool :=
  match a, b with
  | Some x, Some y => y <? x
  | _, _ => false
  end.

(** [Math.floor(a / 60)] and [a % 60] on integers. *)
Definition floor_div (a : option Z) (d : Z) : option Z :=
  match a with Some x => Some (x / d) | None => None end.

Definition rem (a : option Z) (d : Z) : option Z :=
  match a with Some x => Some (Z.rem x d) | None => None end.

(** Truthiness of a possibly missing string and of a possibly missing
    real number ([0] and the empty string are falsy). *)
Definition truthy_string (s : option string) : bool :=
  match s with
  | Some s' => negb (String.eqb s' "")
  | None => false
  end.

Definition truthy_real (x : option R) : bool :=
  match x with
  | Some r => if Req_dec_T r 0 then false else true
  | None => false
  end.

(** [Math.atan2(y, x)]. *)
Definition atan2 (y x : R) : R :=
  if Rlt_dec 0 x then atan (y / x)
  else if Rlt_dec x 0 then
    if Rle_dec 0 y then atan (y / x) + PI else atan (y / x) - PI
  else if Rlt_dec 0 y then PI / 2
  else if Rlt_dec y 0 then - (PI / 2)
  else 0.

End JS.

(** ** Rows of the data store *)

Definition Id := nat.
Bind Scope nat_scope with Id.

(** A calendar date, as the number of days since 1970-01-01. *)
Definition Date := Z.

Record Patient := {
  patient_id : Id;
  area : option string;
  latitude : option R;
  longitude : option R;
  care_needed : option string;
  estimated_care_duration : option Z
}.

Record WorkingHours := {
  wh_professional_id : Id;
  weekday : Z;
  start_time : string;
  end_time : string
}.

Inductive Status := active | completed | reassigned | cancelled.

Record Assignment := {
  assignment_id : Id;
  a_patient_id : Id;
  a_professional_id : Id;
  assigned_by_id : option Id;
  assignment_reason : option string;
  scheduled_visit_date : option Date;
  scheduled_visit_time : option string;
  status : Status
}.

Record Schedule := {
  s_patient_id : Id;
  s_professional_id : Id;
  s_date : Date;
  s_start_time : string;
  s_end_time : string
}.

(** A row of a professional's specializations; the label is present. *)
Record Specialization := { specialization : string }.

(** ** [src/services/geoUtils.js] *)

Module GeoUtils.

Open Scope R_scope.

Record Location := {
  lat : option R;
  lng : option R;
  loc_area : option string
}.

Definition OULU_CENTER : Location :=
  {| lat := Some 65.0121; lng := Some 25.4651; loc_area := None |}.

Definition AVERAGE_SPEED_KMH : R := 30.
Definition MIN_BUFFER_MINUTES : R := 5.

Definition toRadians (degrees : R) : R := degrees * (PI / 180).

(** Haversine distance in kilometres. *)
Definition calculateDistance (lat1 lng1 lat2 lng2 : R) : R :=
  let R_ := 6371 in
  let dLat := toRadians (lat2 - lat1) in
  let dLng := toRadians (lng2 - lng1) in
  let a :=
    sin (dLat / 2) * sin (dLat / 2) +
    cos (toRadians lat1) * cos (toRadians lat2) *
    sin (dLng / 2) * sin (dLng / 2) in
  let c := 2 * JS.atan2 (sqrt a) (sqrt (1 - a)) in
  R_ * c.

(** Estimated travel time in whole minutes. *)
Definition calculateTravelTime (lat1 lng1 lat2 lng2 : R) : Z :=
  let distanceKm := calculateDistance lat1 lng1 lat2 lng2 in
  let travelMinutes := (distanceKm * 1.3 / AVERAGE_SPEED_KMH) * 60 in
  Zceil (travelMinutes + MIN_BUFFER_MINUTES).

Definition zone_row (l : list (string * Z)) : gmap string Z := list_to_map l.

Definition zone_names : list string :=
  ["Keskusta (City Center)"; "Raksila"; "Tuira"; "Meri-Oulu"; "Pateniemi";
   "Pohjois-Oulu"; "Kontinkangas"; "Kaakkuri"; "Myllyoja"]%string.

Definition ZONE_TRAVEL_TIME : gmap string (gmap string Z) :=
  list_to_map
    (combine zone_names
       (map (fun ts => zone_row (combine zone_names ts))
          [ [ 5; 10; 12; 15; 20; 15; 12; 10;  8];
            [10;  5;  8; 12; 18; 12; 10; 12;  8];
            [12;  8;  5; 10; 15; 10; 12; 15; 12];
            [15; 12; 10;  5;  8; 12; 18; 20; 18];
            [20; 18; 15;  8;  5; 15; 22; 25; 22];
            [15; 12; 10; 12; 15;  5; 10; 12; 12];
            [12; 10; 12; 18; 22; 10;  5;  8; 10];
            [10; 12; 15; 20; 25; 12;  8;  5; 12];
            [ 8;  8; 12; 18; 22; 12; 10; 12;  5] ]%Z)).

(** [v || d] on a table entry: a missing entry and a stored 0 both give
    the default. *)
Definition or_default (v : option Z) (d : Z) : Z :=
  match v with
  | Some x => if (x =? 0)%Z then d else x
  | None => d
  end.

(** Zone travel time, for areas that name no member of
    [Object.prototype]. *)
Definition getZoneBasedTravelTime (fromArea toArea : option string) : Z :=
  if negb (JS.truthy_string fromArea) || negb (JS.truthy_string toArea)
  then 15%Z
  else
    match ZONE_TRAVEL_TIME !! default ""%string fromArea with
    | Some fromZone => or_default (fromZone !! default ""%string toArea) 15
    | None => 15%Z
    end.


(** The metric of the route optimiser from the current location to a
    patient. *)
Definition route_distance (currentLocation : Location) (patient : Patient) : R :=
  if JS.truthy_real (latitude patient) && JS.truthy_real (longitude patient) &&
     JS.truthy_real (lat currentLocation) && JS.truthy_real (lng currentLocation)
  then calculateDistance
         (default 0 (lat currentLocation)) (default 0 (lng currentLocation))
         (default 0 (latitude patient)) (default 0 (longitude patient))
  else IZR (getZoneBasedTravelTime (loc_area currentLocation) (area patient)) / 2.

(** [distance < nearestDistance], where [None] is [Infinity]. *)
Definition closer (distance : R) (nearestDistance : option R) : bool :=
  match nearestDistance with
  | None => true
  | Some d => if Rlt_dec distance d then true else false
  end.

(** The inner [for] loop, from index [i] on: the index of the first
    patient at minimum distance. *)
Fixpoint nearest_scan (currentLocation : Location) (remaining : list Patient)
    (i nearestIndex : nat) (nearestDistance : option R) : nat :=
  match remaining with
  | [] => nearestIndex
  | patient :: rest =>
      let distance := route_distance currentLocation patient in
      if closer distance nearestDistance
      then nearest_scan currentLocation rest (S i) i (Some distance)
      else nearest_scan currentLocation rest (S i) nearestIndex nearestDistance
  end.

(** [remaining.splice(i, 1)]: the removed elements and what is left. *)
Definition splice1 {A} (l : list A) (i : nat) : list A * list A :=
  (firstn 1 (skipn i l), (firstn i l ++ skipn (S i) l)%list).

(** The [while (remaining.length > 0)] loop; each turn removes one
    patient, so [length remaining] turns are enough. *)
Fixpoint visit (turns : nat) (remaining optimized : list Patient)
    (currentLocation : Location) : list Patient :=
  match turns, remaining with
  | S turns', _ :: _ =>
      let nearestIndex := nearest_scan currentLocation remaining 0 0 None in
      match splice1 remaining nearestIndex with
      | (nearest :: _, remaining') =>
          visit turns' remaining' (optimized ++ [nearest])%list
            {| lat := latitude nearest;
               lng := longitude nearest;
               loc_area := area nearest |}
      | ([], _) => optimized
      end
  | _, _ => optimized
  end.

Definition optimizeRouteByDistance (patients : option (list Patient))
    (startLocation : option Location) : list Patient :=
  match patients with
  | None | Some [] => []
  | Some [p] => [p]
  | Some ps => visit (length ps) ps [] (default OULU_CENTER startLocation)
  end.

End GeoUtils.

(** ** The data store and the asynchronous calls on it *)

Record Store := {
  patients : list Patient;
  working_hours : list WorkingHours;
  patient_assignments : list Assignment;
  schedules : list Schedule;
  next_id : Id
}.

(** What the coming store call does: it is carried out, it reports an
    [error] value and changes nothing, or its promise is rejected. *)
Inductive Outcome :=
| Done
| Failed (message : string)
| Rejected (message : string).

Record World := {
  db : Store;
  plan : list Outcome
}.

Inductive Completion (A : Type) :=
| Returned (a : A)
| Thrown (message : string).
Arguments Returned {A} a.
Arguments Thrown {A} message.

Definition Async (A : Type) : Type := World -> Completion A * World.

Definition ret {A} (a : A) : Async A := fun w => (Returned a, w).

Definition throw {A} (message : string) : Async A := fun w => (Thrown message, w).

Definition bind {A B} (c : Async A) (k : A -> Async B) : Async B :=
  fun w =>
    match c w with
    | (Returned a, w') => k a w'
    | (Thrown m, w') => (Thrown m, w')
    end.

(** [try { c } catch (err) { handler(err.message) }] *)
Definition try_catch {A} (c : Async A) (handler : string -> Async A) : Async A :=
  fun w =>
    match c w with
    | (Returned a, w') => (Returned a, w')
    | (Thrown m, w') => handler m w'
    end.

Notation "'await' x ':=' c 'in' k" := (bind c (fun x => k))
  (at level 10, x name, c at level 100, k at level 200).

(** The [{ data, error }] object a Supabase call resolves to. *)
Record Reply (D : Type) := {
  data : option D;
  error : option string
}.
Arguments data {D} _.
Arguments error {D} _.

Definition supabase {D} (query : Store -> Reply D * Store) : Async (Reply D) :=
  fun w =>
    match plan w with
    | Failed m :: rest =>
        (Returned {| data := None; error := Some m |}, {| db := db w; plan := rest |})
    | Rejected m :: rest =>
        (Thrown m, {| db := db w; plan := rest |})
    | Done :: rest =>
        let (r, s) := query (db w) in (Returned r, {| db := s; plan := rest |})
    | [] =>
        let (r, s) := query (db w) in (Returned r, {| db := s; plan := [] |})
    end.

(** [.single()]: exactly one row, or an error. *)
Definition single {D} (rows : list D) : Reply D :=
  match rows with
  | [r] => {| data := Some r; error := None |}
  | _ => {| data := None;
            error := Some "JSON object requested, multiple (or no) rows returned" |}
  end.

Definition rows {D} (l : list D) : Reply (list D) :=
  {| data := Some l; error := None |}.

Definition is_active (s : Status) : bool :=
  match s with active => true | _ => false end.

Definition date_is (d : Date) (o : option Date) : bool :=
  match o with Some d' => d' =? d | None => false end.

(** [from('patients').select('*').eq('id', id).single()] *)
Definition select_patient (id : Id) : Async (Reply Patient) :=
  supabase (fun s =>
    (single (List.filter (fun p => Nat.eqb (patient_id p) id) (patients s)), s)).

(** [from('working_hours').select(...).eq('professional_id', p).eq('weekday', d).single()] *)
Definition select_working_hours (professionalId : Id) (dayOfWeek : Z)
  : Async (Reply WorkingHours) :=
  supabase (fun s =>
    (single (List.filter (fun h => Nat.eqb (wh_professional_id h) professionalId
                              && (weekday h =? dayOfWeek))
                    (working_hours s)), s)).

(** The rows counted against the daily capacity:
    [.eq('professional_id', p).eq('scheduled_visit_date', d).eq('status', 'active')] *)
Definition active_on (professionalId : Id) (visitDate : Date)
    (l : list Assignment) : list Assignment :=
  List.filter (fun a => Nat.eqb (a_professional_id a) professionalId
                   && date_is visitDate (scheduled_visit_date a)
                   && is_active (status a)) l.

Definition select_active_assignments (professionalId : Id) (visitDate : Date)
  : Async (Reply (list Assignment)) :=
  supabase (fun s =>
    (rows (active_on professionalId visitDate (patient_assignments s)), s)).

(** [from('patient_assignments').insert([row]).select().single()]; the
    store gives the new row its id. *)
Definition insert_assignment (row : Assignment) : Async (Reply Assignment) :=
  supabase (fun s =>
    let row' :=
      {| assignment_id := next_id s;
         a_patient_id := a_patient_id row;
         a_professional_id := a_professional_id row;
         assigned_by_id := assigned_by_id row;
         assignment_reason := assignment_reason row;
         scheduled_visit_date := scheduled_visit_date row;
         scheduled_visit_time := scheduled_visit_time row;
         status := status row |} in
    (single [row'],
     {| patients := patients s;
        working_hours := working_hours s;
        patient_assignments := (patient_assignments s ++ [row'])%list;
        schedules := schedules s;
        next_id := S (next_id s) |})).

(** [from('schedules').insert([row])] *)
Definition insert_schedule (row : Schedule) : Async (Reply unit) :=
  supabase (fun s =>
    ({| data := None; error := None |},
     {| patients := patients s;
        working_hours := working_hours s;
        patient_assignments := patient_assignments s;
        schedules := (schedules s ++ [row])%list;
        next_id := next_id s |})).

(** [from('patient_assignments').update({ status }).eq('id', id)] *)
Definition update_status (id : Id) (st : Status) : Async (Reply unit) :=
  supabase (fun s =>
    ({| data := None; error := None |},
     {| patients := patients s;
        working_hours := working_hours s;
        patient_assignments :=
          map (fun a =>
                 if Nat.eqb (assignment_id a) id then
                   {| assignment_id := assignment_id a;
                      a_patient_id := a_patient_id a;
                      a_professional_id := a_professional_id a;
                      assigned_by_id := assigned_by_id a;
                      assignment_reason := assignment_reason a;
                      scheduled_visit_date := scheduled_visit_date a;
                      scheduled_visit_time := scheduled_visit_time a;
                      status := st |}
                 else a)
              (patient_assignments s);
        schedules := schedules s;
        next_id := next_id s |})).

(** [from('patient_assignments').select('*').eq('id', id).single()] *)
Definition select_assignment (id : Id) : Async (Reply Assignment) :=
  supabase (fun s =>
    (single (List.filter (fun a => Nat.eqb (assignment_id a) id) (patient_assignments s)), s)).

(** ** [src/services/timeSlotOptimizer.js] *)

Module TimeSlotOptimizer.

(** Care type to acceptable specializations, in the order of the object
    literal (the order [Object.entries] enumerates). *)
Definition CARE_SPECIALTY_MAP : list (string * list string) :=
  [ ("wound dressing", ["Wound Care"; "Wound Care Specialist"; "Post-operative Care"; "Nursing Care"]);
    ("wound care", ["Wound Care"; "Wound Care Specialist"; "Post-operative Care"; "Nursing Care"]);
    ("post-operative care", ["Post-operative Care"; "Wound Care"; "Nursing Care"; "Acute Care"]);
    ("iv therapy", ["IV Therapy Specialist"; "Nursing Care"; "Acute Care"]);
    ("medication administration", ["Medication Administration"; "Medication Management"; "Nursing Care"]);
    ("palliative care", ["Palliative Care"; "Elderly Care"; "Nursing Care"]);
    ("respiratory care", ["Respiratory Care"; "Pulmonology"; "Nursing Care"]);
    ("diabetic care", ["Diabetic Care"; "Chronic Disease Management"; "Endocrinology"]);
    ("elderly care", ["Elderly Care"; "Home Health Aide"; "Nursing Care"; "Geriatric Care"]);
    ("home health aide", ["Home Health Aide"; "Nursing Care"; "Elderly Care"]);
    ("nursing care", ["Nursing Care"; "Home Health Aide"; "Medication Administration"]);
    ("physical therapy", ["Physical Therapy"; "Rehabilitation"; "Occupational Therapy"]);
    ("chronic disease management", ["Chronic Disease Management"; "Nursing Care"]);
    ("cardiac care", ["Cardiac Care"; "Cardiology"; "Cardiovascular Assessment"]);
    ("general checkup", ["Home Health Aide"; "Nursing Care"; "General Practice"]) ].

(** Care duration by type, in minutes. *)
Definition CARE_DURATION : gmap string Z :=
  list_to_map
    [ ("Wound Dressing", 45); ("Wound Care Specialist", 45);
      ("Post-operative Care", 60); ("IV Therapy Specialist", 45);
      ("Medication Administration", 30); ("Palliative Care", 60);
      ("Respiratory Care", 45); ("Diabetic Care", 40);
      ("Elderly Care", 50); ("Home Health Aide", 45);
      ("Nursing Care", 50); ("Physical Therapy", 60);
      ("Chronic Disease Management", 45);
      ("Home Visit - General Checkup", 30); ("Cardiac Care", 45);
      ("default", 45) ].

(** Zone-based travel times (fallback): three rows only. *)
Definition TRAVEL_TIME : gmap string (gmap string Z) :=
  list_to_map
    (combine ["Keskusta (City Center)"; "Raksila"; "Tuira"]
       (map (fun ts => GeoUtils.zone_row (combine GeoUtils.zone_names ts))
          [ [ 0; 15; 20; 25; 30; 25; 20; 15; 10];
            [15;  0; 10; 20; 25; 20; 15; 20; 10];
            [20; 10;  0; 15; 20; 15; 20; 25; 20] ])).

(** The property key an optional string is coerced to. *)
Definition key (k : option string) : string := default "null" k.

(** Visit duration. The table is consulted only without a positive
    estimate, and is then modelled for a care type that names no member of
    [Object.prototype]. *)
Definition getCareDuration (careNeeded : option string)
    (estimatedCareDuration : option Z) : Z :=
  match estimatedCareDuration with
  | Some d =>
      if 0 <? d then d
      else GeoUtils.or_default (CARE_DURATION !! key careNeeded)
             (default 0 (CARE_DURATION !! "default"))
  | None =>
      GeoUtils.or_default (CARE_DURATION !! key careNeeded)
        (default 0 (CARE_DURATION !! "default"))
  end.

Definition has_coords (c : option GeoUtils.Location) : bool :=
  match c with
  | Some l => JS.truthy_real (GeoUtils.lat l) && JS.truthy_real (GeoUtils.lng l)
  | None => false
  end.

Definition coord (f : GeoUtils.Location -> option R)
    (c : option GeoUtils.Location) : R :=
  match c with Some l => default 0%R (f l) | None => 0%R end.

(** Travel time of the optimiser. The table is consulted only without
    usable coordinates, and is then modelled for zone names that name no
    member of [Object.prototype]. *)
Definition getTravelTime (from to : option string)
    (fromCoords toCoords : option GeoUtils.Location) : Z :=
  if has_coords fromCoords && has_coords toCoords then
    GeoUtils.calculateTravelTime
      (coord GeoUtils.lat fromCoords) (coord GeoUtils.lng fromCoords)
      (coord GeoUtils.lat toCoords) (coord GeoUtils.lng toCoords)
  else if negb (JS.truthy_string from) || negb (JS.truthy_string to) then 15
  else
    match TRAVEL_TIME !! key from with
    | Some routeMap => GeoUtils.or_default (routeMap !! key to) 20
    | None => 20
    end.

(** The [for ... of Object.entries(CARE_SPECIALTY_MAP)] loop, with its
    early [return true]. *)
Fixpoint scan_care_types (careNeededLower : string) (profSpecs : list string)
    (entries : list (string * list string)) : bool :=
  match entries with
  | [] => false
  | (careType, validSpecs) :: rest =>
      if JS.includes careNeededLower careType then
        let hasValidSpec :=
          existsb (fun validSpec =>
            existsb (fun profSpec =>
              JS.includes profSpec (JS.toLowerCase validSpec)
              || JS.includes (JS.toLowerCase validSpec) profSpec)
              profSpecs)
            validSpecs in
        if hasValidSpec then true
        else scan_care_types careNeededLower profSpecs rest
      else scan_care_types careNeededLower profSpecs rest
  end.

Definition checkSkillMatch (patientCareNeeded : option string)
    (professionalSpecializations : option (list Specialization)) : bool :=
  match patientCareNeeded, professionalSpecializations with
  | Some care, Some specs =>
      if String.eqb care "" || Nat.eqb (length specs) 0 then false
      else
        let careNeededLower := JS.toLowerCase care in
        let profSpecs := map (fun s => JS.toLowerCase (specialization s)) specs in
        if existsb (fun spec => String.eqb spec careNeededLower) profSpecs
        then true
        else scan_care_types careNeededLower profSpecs CARE_SPECIALTY_MAP
  | _, _ => false
  end.

(** What [calculateAvailableTimeSlots] resolves to. *)
Record SlotResult := {
  available : bool;
  reason : option string;
  slot_suggestedTime : option string;
  slots : option (list string);
  patientCountOnDay : option nat;
  maxCapacity : option nat
}.

(** An entry of the in-memory list of assignments made earlier in a
    batch. *)
Record InBatch := {
  professional_id : Id;
  b_scheduled_visit_date : Date;
  b_scheduled_visit_time : option string
}.

(** [new Date(visitDate).getDay()]: 0 is Sunday; day 0 was a Thursday.
    The date is read in the time zone of the server. *)
Definition getDay (d : Date) : Z := (d + 4) mod 7.

(** [const [h, m] = t.split(':').map(Number)] *)
Definition hours_minutes (t : string) : option Z * option Z :=
  match map JS.Number (JS.split ":" t) with
  | h :: m :: _ => (h, m)
  | [h] => (h, None)
  | [] => (None, None)
  end.

(** [h * 60 + m] *)
Definition minutes_of (t : string) : option Z :=
  let (h, m) := hours_minutes t in
  JS.lift2 Z.add (JS.lift2 Z.mul h (Some 60)) m.

(** [`${floor(t / 60).toString().padStart(2, '0')}:${(t % 60).toString().padStart(2, '0')}`] *)
Definition format_time (t : option Z) : string :=
  JS.padStart2 (JS.toString (JS.floor_div t 60)) ++ ":" ++
  JS.padStart2 (JS.toString (JS.rem t 60)).

Definition MAX_PATIENTS_PER_DAY : nat := 4.

Definition count_text (n : nat) : string := JS.toString (Some (Z.of_nat n)).

Definition calculateAvailableTimeSlots (professionalId : Id) (visitDate : Date)
    (existingAssignments : list InBatch) : Async SlotResult :=
  try_catch
    (let dayOfWeek := if getDay visitDate =? 0 then 7 else getDay visitDate in
     await wh := select_working_hours professionalId dayOfWeek in
     match error wh, data wh with
     | None, Some workingHours =>
         await assigned := select_active_assignments professionalId visitDate in
         match error assigned with
         | Some _ =>
             ret {| available := false;
                    reason := Some "Error checking capacity";
                    slot_suggestedTime := None; slots := None;
                    patientCountOnDay := Some 0%nat; maxCapacity := Some 4%nat |}
         | None =>
             let memoryAssignmentsForDay :=
               List.filter (fun a => Nat.eqb (professional_id a) professionalId
                                && (b_scheduled_visit_date a =? visitDate))
                      existingAssignments in
             let dbCount :=
               match data assigned with Some l => length l | None => 0%nat end in
             let memoryCount := length memoryAssignmentsForDay in
             let currentPatientCountOnDay := (dbCount + memoryCount)%nat in
             if (MAX_PATIENTS_PER_DAY <=? currentPatientCountOnDay)%nat then
               ret {| available := false;
                      reason := Some ("Professional has "
                                      ++ count_text currentPatientCountOnDay ++ "/"
                                      ++ count_text MAX_PATIENTS_PER_DAY ++ " patients");
                      slot_suggestedTime := None; slots := None;
                      patientCountOnDay := Some currentPatientCountOnDay;
                      maxCapacity := Some MAX_PATIENTS_PER_DAY |}
             else
               let dayStart := minutes_of (start_time workingHours) in
               let dayEnd := minutes_of (end_time workingHours) in
               let slotTime :=
                 JS.lift2 Z.add dayStart
                   (Some (Z.of_nat currentPatientCountOnDay * 120)) in
               if JS.gt (JS.lift2 Z.add slotTime (Some 60)) dayEnd then
                 ret {| available := false;
                        reason := Some "No time slots available";
                        slot_suggestedTime := None; slots := None;
                        patientCountOnDay := Some currentPatientCountOnDay;
                        maxCapacity := None |}
               else
                 let suggestedTime := format_time slotTime in
                 ret {| available := true;
                        reason := None;
                        slot_suggestedTime := Some suggestedTime;
                        slots := Some [suggestedTime];
                        patientCountOnDay := Some currentPatientCountOnDay;
                        maxCapacity := Some MAX_PATIENTS_PER_DAY |}
         end
     | _, _ =>
         ret {| available := false;
                reason := Some "No working hours for this day";
                slot_suggestedTime := None; slots := None;
                patientCountOnDay := Some 0%nat; maxCapacity := Some 4%nat |}
     end)
    (fun message =>
       ret {| available := false; reason := Some message;
              slot_suggestedTime := None; slots := None;
              patientCountOnDay := None; maxCapacity := None |}).

(** Helper: add minutes to a time string. *)
Definition addMinutes (timeString : string) (minutes : Z) : string :=
  let totalMins := JS.lift2 Z.add (minutes_of timeString) (Some minutes) in
  format_time totalMins.

(** What [smartAssignPatient] resolves to. *)
Record AssignResult := {
  success : bool;
  assignment : option Assignment;
  suggestedTime : option string;
  res_error : option string
}.

Definition failure (message : option string) : AssignResult :=
  {| success := false; assignment := None; suggestedTime := None;
     res_error := message |}.

Definition smartAssignPatient (patientId professionalId : Id) (date : Date)
    (assignedById : option Id) : Async AssignResult :=
  try_catch
    (await p := select_patient patientId in
     match error p with
     | Some patientError => throw patientError
     | None =>
         await slots := calculateAvailableTimeSlots professionalId date [] in
         if negb (available slots) then ret (failure (reason slots))
         else
           let assignmentData :=
             {| assignment_id := 0%nat;
                a_patient_id := patientId;
                a_professional_id := professionalId;
                assigned_by_id := assignedById;
                assignment_reason := None;
                scheduled_visit_date := Some date;
                scheduled_visit_time := slot_suggestedTime slots;
                status := active |} in
           await inserted := insert_assignment assignmentData in
           match error inserted with
           | Some e => throw e
           | None =>
               match data p, slot_suggestedTime slots with
               | Some patient, Some start =>
                   await _ := insert_schedule
                     {| s_patient_id := patientId;
                        s_professional_id := professionalId;
                        s_date := date;
                        s_start_time := start;
                        s_end_time :=
                          addMinutes start
                            (getCareDuration (care_needed patient)
                               (estimated_care_duration patient)) |} in
                   ret {| success := true;
                          assignment := data inserted;
                          suggestedTime := slot_suggestedTime slots;
                          res_error := None |}
               | _, _ => throw "TypeError: cannot read properties of null"
               end
           end
     end)
    (fun message => ret (failure (Some message))).

Record BulkItem := {
  item_patient_id : Id;
  item_professional_id : Id;
  item_date : Date
}.

Record BulkResult := {
  total : nat;
  successful : nat;
  failed : nat;
  results : list (BulkItem * AssignResult)
}.

(** The [for ... of assignments] loop with its two accumulators. *)
Fixpoint bulk_loop (assignments : list BulkItem) (assignedById : option Id)
    (results : list (BulkItem * AssignResult))
    (existingAssignments : list InBatch)
  : Async (list (BulkItem * AssignResult) * list InBatch) :=
  match assignments with
  | [] => ret (results, existingAssignments)
  | assignment :: rest =>
      await result := smartAssignPatient (item_patient_id assignment)
                        (item_professional_id assignment)
                        (item_date assignment) assignedById in
      bulk_loop rest assignedById
        (results ++ [(assignment, result)])%list
        (if success result then
           (existingAssignments ++
              [{| professional_id := item_professional_id assignment;
                  b_scheduled_visit_date := item_date assignment;
                  b_scheduled_visit_time := suggestedTime result |}])%list
         else existingAssignments)
  end.

Definition bulkAssignPatients (assignments : list BulkItem)
    (assignedById : option Id) : Async BulkResult :=
  await r := bulk_loop assignments assignedById [] [] in
  ret {| total := length assignments;
         successful := length (List.filter (fun r => success (snd r)) (fst r));
         failed := length (List.filter (fun r => negb (success (snd r))) (fst r));
         results := fst r |}.

End TimeSlotOptimizer.

(** ** [src/routes/assignments.js]: reassign a patient *)

Module AssignmentsRoute.

Inductive Response :=
| Json (body : option Assignment)
| Status500 (message : string).

(** [POST /:id/reassign], for an authenticated coordinator [user]. *)
Definition reassign (oldAssignmentId new_professional_id : Id)
    (reason : option string) (user : Id) : Async Response :=
  try_catch
    (await _ := update_status oldAssignmentId reassigned in
     await old := select_assignment oldAssignmentId in
     match error old with
     | Some fetchError => throw fetchError
     | None =>
         match data old with
         | Some oldAssignment =>
             await inserted := insert_assignment
               {| assignment_id := 0%nat;
                  a_patient_id := a_patient_id oldAssignment;
                  a_professional_id := new_professional_id;
                  assigned_by_id := Some user;
                  assignment_reason :=
                    Some (if JS.truthy_string reason
                          then default "" reason else "Reassignment");
                  scheduled_visit_date := None;
                  scheduled_visit_time := None;
                  status := active |} in
             match error inserted with
             | Some e => throw e
             | None => ret (Json (data inserted))
             end
         | None => throw "TypeError: cannot read properties of null"
         end
     end)
    (fun message => ret (Status500 message)).

End AssignmentsRoute.

(** ** [src/routes/assignments.js]: update the status of an assignment *)

Module AssignmentStatusRoute.

Inductive Response :=
| Json (body : option Assignment)
| Status400 (message : string)
| Status500 (message : string).

(** [['active', 'completed', 'reassigned', 'cancelled'].includes(status)] *)
Definition status_of (s : string) : option Status :=
  if String.eqb s "active" then Some active
  else if String.eqb s "completed" then Some completed
  else if String.eqb s "reassigned" then Some reassigned
  else if String.eqb s "cancelled" then Some cancelled
  else None.

(** [from('patient_assignments').update({ status }).eq('id', id).select().single()] *)
Definition update_status_single (id : Id) (st : Status) : Async (Reply Assignment) :=
  supabase (fun s =>
    let updated :=
      map (fun a =>
             if Nat.eqb (assignment_id a) id then
               {| assignment_id := assignment_id a;
                  a_patient_id := a_patient_id a;
                  a_professional_id := a_professional_id a;
                  assigned_by_id := assigned_by_id a;
                  assignment_reason := assignment_reason a;
                  scheduled_visit_date := scheduled_visit_date a;
                  scheduled_visit_time := scheduled_visit_time a;
                  status := st |}
             else a)
          (patient_assignments s) in
    (single (List.filter (fun a => Nat.eqb (assignment_id a) id) updated),
     {| patients := patients s;
        working_hours := working_hours s;
        patient_assignments := updated;
        schedules := schedules s;
        next_id := next_id s |})).

(** [PATCH /:id/status], with the [status] field of the request body. *)
Definition updateStatus (id : Id) (status : option string) : Async Response :=
  try_catch
    (match status with
     | Some s =>
         match status_of s with
         | Some st =>
             await r := update_status_single id st in
             match error r with
             | Some e => throw e
             | None => ret (Json (data r))
             end
         | None => ret (Status400 "Invalid status")
         end
     | None => ret (Status400 "Invalid status")
     end)
    (fun message => ret (Status500 message)).

End AssignmentStatusRoute.

(** * Specification-level notions *)

(** ** Property lookups *)

(** The names of the members of [Object.prototype]. A lookup [table[key]]
    on an object literal finds these besides the literal's own keys. *)
Definition Object_prototype_names : list string :=
  ["constructor"; "__defineGetter__"; "__defineSetter__"; "hasOwnProperty";
   "__lookupGetter__"; "__lookupSetter__"; "isPrototypeOf";
   "propertyIsEnumerable"; "toString"; "valueOf"; "__proto__";
   "toLocaleString"].

(** A key that names no inherited member: looking it up in an object
    literal gives the literal's own entry or [undefined], which is what
    the tables of the embedding give. *)
Definition own_key (k : option string) : Prop :=
  forall z, k = Some z -> ~ In z Object_prototype_names.

(** ** Strings *)

(** [t] occurs in [s]. *)
Definition substring (t s : string) : Prop :=
  exists pre post, s = pre ++ t ++ post.

(** Equality and occurrence up to letter case. *)
Definition ci_equal (a b : string) : Prop :=
  JS.toLowerCase a = JS.toLowerCase b.

Definition ci_substring (t s : string) : Prop :=
  substring (JS.toLowerCase t) (JS.toLowerCase s).

Definition ci_related (a b : string) : Prop :=
  ci_substring a b \/ ci_substring b a.

(** The skill-match decision as the specification words it. *)
Definition matches_spec (careNeeded : option string)
    (specializations : option (list Specialization)) : Prop :=
  exists care specs,
    careNeeded = Some care /\ specializations = Some specs /\
    care <> "" /\ specs <> [] /\
    ((exists s, In s specs /\ ci_equal (specialization s) care) \/
     (exists careType validSpecs validSpec s,
        In (careType, validSpecs) TimeSlotOptimizer.CARE_SPECIALTY_MAP /\
        ci_substring careType care /\
        In validSpec validSpecs /\ In s specs /\
        ci_related (specialization s) validSpec)).

(** ** Capacity and slots *)

(** The number of active assignments of a professional on a date. *)
Definition load (s : Store) (professionalId : Id) (d : Date) : nat :=
  length (active_on professionalId d (patient_assignments s)).

Definition within_capacity (s : Store) : Prop :=
  forall professionalId d,
    (load s professionalId d <= TimeSlotOptimizer.MAX_PATIENTS_PER_DAY)%nat.

(** The weekday number the slot calculator queries with (1 is Monday,
    7 is Sunday). *)
Definition weekday_of (d : Date) : Z :=
  if TimeSlotOptimizer.getDay d =? 0 then 7 else TimeSlotOptimizer.getDay d.

(** The working-hours rows of a professional for the weekday of a date. *)
Definition windows (s : Store) (professionalId : Id) (d : Date) : list WorkingHours :=
  List.filter (fun h => Nat.eqb (wh_professional_id h) professionalId
                   && (weekday h =? weekday_of d))
         (working_hours s).

(** The in-batch entries of a professional on a date. *)
Definition in_batch_load (existing : list TimeSlotOptimizer.InBatch)
    (professionalId : Id) (d : Date) : nat :=
  length (List.filter (fun a => Nat.eqb (TimeSlotOptimizer.professional_id a) professionalId
                           && (TimeSlotOptimizer.b_scheduled_visit_date a =? d))
                 existing).

(** The start of the slot after [c] patients, in minutes after midnight. *)
Definition slot_start (wh : WorkingHours) (c : nat) : option Z :=
  JS.lift2 Z.add (TimeSlotOptimizer.minutes_of (start_time wh))
    (Some (Z.of_nat c * 120)).

(** The slot calculator grants the time [t] in the window [wh] to a
    professional who has [c] patients that day. *)
Definition slot_fits (wh : WorkingHours) (c : nat) (t : string) : Prop :=
  (c < TimeSlotOptimizer.MAX_PATIENTS_PER_DAY)%nat /\
  JS.gt (JS.lift2 Z.add (slot_start wh c) (Some 60))
        (TimeSlotOptimizer.minutes_of (end_time wh)) = false /\
  t = TimeSlotOptimizer.format_time (slot_start wh c).

(** The patient rows with a given id. *)
Definition patients_with (s : Store) (id : Id) : list Patient :=
  List.filter (fun p => Nat.eqb (patient_id p) id) (patients s).

(** The first [n] store calls to come are carried out. *)
Definition carried_out (n : nat) (w : World) : Prop :=
  forall i, (i < n)%nat -> nth i (plan w) Done = Done.

(** Two decimal digits. *)
Definition two_digits (n : Z) : string :=
  String (ascii_of_nat (48 + Z.to_nat (n / 10)))
    (String (ascii_of_nat (48 + Z.to_nat (n mod 10))) "").

(** ** Operations and reachable states *)

(** One operation of the assignment core, or a change of what the coming
    store calls will do. *)
Inductive step : World -> World -> Prop :=
| step_assignOne w patientId professionalId d assignedById :
    step w (snd (TimeSlotOptimizer.smartAssignPatient
                   patientId professionalId d assignedById w))
| step_assignBulk w assignments assignedById :
    step w (snd (TimeSlotOptimizer.bulkAssignPatients assignments assignedById w))
| step_reassign w oldAssignmentId newProfessionalId why user :
    step w (snd (AssignmentsRoute.reassign
                   oldAssignmentId newProfessionalId why user w))
| step_outcomes w p :
    step w {| db := db w; plan := p |}.

(** The states reached from a store that is within capacity (an empty
    assignment table is). *)
Inductive reachable : World -> Prop :=
| reachable_initial w : within_capacity (db w) -> reachable w
| reachable_step w w' : reachable w -> step w w' -> reachable w'.

(** ** Assertions on asynchronous computations *)

(** From a store satisfying [P], the computation ends in a completion and
    a store satisfying [Q], whatever the store calls do. *)
Definition hoare {A} (P : Store -> Prop) (c : Async A)
    (Q : Completion A -> Store -> Prop) : Prop :=
  forall w, P (db w) -> Q (fst (c w)) (db (snd (c w))).

(** What an answer of the slot calculator that grants a slot says about
    the store it ran on. *)
Definition granted (s0 : Store) (professionalId : Id) (d : Date)
    (existing : list TimeSlotOptimizer.InBatch)
    (x : TimeSlotOptimizer.SlotResult) : Prop :=
  TimeSlotOptimizer.available x = true ->
  exists wh t,
    windows s0 professionalId d = [wh] /\
    TimeSlotOptimizer.slot_suggestedTime x = Some t /\
    slot_fits wh (load s0 professionalId d + in_batch_load existing professionalId d) t.

(** What a run of [smartAssignPatient] from the store [s0] leaves behind:
    the patient and working-hours tables are untouched, and either the
    assignment table is untouched and the run did not succeed, or one
    active row was appended for a slot the calculator granted. *)
Definition assign_outcome (s0 : Store) (patientId professionalId : Id) (d : Date)
    (r : Completion TimeSlotOptimizer.AssignResult) (s : Store) : Prop :=
  patients s = patients s0 /\ working_hours s = working_hours s0 /\
  ((patient_assignments s = patient_assignments s0 /\
    forall x, r = Returned x -> TimeSlotOptimizer.success x = false) \/
   (exists wh t row,
      windows s0 professionalId d = [wh] /\
      slot_fits wh (load s0 professionalId d) t /\
      patient_assignments s = (patient_assignments s0 ++ [row])%list /\
      a_professional_id row = professionalId /\
      scheduled_visit_date row = Some d /\
      scheduled_visit_time row = Some t /\
      status row = active /\
      forall x, r = Returned x -> TimeSlotOptimizer.success x = true ->
        TimeSlotOptimizer.suggestedTime x = Some t /\
        exists patient, patients_with s0 patientId = [patient])).

(** A successful result of a batch item, read against the working-hours
    and patient tables: the suggested time is one the slot calculator
    grants in the professional's window for that weekday, for some load
    below the capacity, and the patient row exists. *)
Definition visit_granted (s0 : Store) (item : TimeSlotOptimizer.BulkItem)
    (x : TimeSlotOptimizer.AssignResult) : Prop :=
  TimeSlotOptimizer.success x = true ->
  exists wh c t patient,
    windows s0 (TimeSlotOptimizer.item_professional_id item)
               (TimeSlotOptimizer.item_date item) = [wh] /\
    slot_fits wh c t /\
    TimeSlotOptimizer.suggestedTime x = Some t /\
    patients_with s0 (TimeSlotOptimizer.item_patient_id item) = [patient].

(** ** Committed visits *)

(** The result [x] of a successful assignment of [item], made from the
    world [w] by [smartAssignPatient] or as an item of a batch given to
    [bulkAssignPatients]. *)
Inductive commits (w : World) (item : TimeSlotOptimizer.BulkItem)
    (x : TimeSlotOptimizer.AssignResult) : Prop :=
| commits_one assignedById :
    fst (TimeSlotOptimizer.smartAssignPatient
           (TimeSlotOptimizer.item_patient_id item)
           (TimeSlotOptimizer.item_professional_id item)
           (TimeSlotOptimizer.item_date item) assignedById w) = Returned x ->
    TimeSlotOptimizer.success x = true ->
    commits w item x
| commits_bulk assignments assignedById b :
    fst (TimeSlotOptimizer.bulkAssignPatients assignments assignedById w)
      = Returned b ->
    In (item, x) (TimeSlotOptimizer.results b) ->
    TimeSlotOptimizer.success x = true ->
    commits w item x.

(** The visit length the schedule entry of a patient is given. *)
Definition visit_duration (patient : Patient) : Z :=
  TimeSlotOptimizer.getCareDuration (care_needed patient)
    (estimated_care_duration patient).

(** Every committed visit ends within the working hours: start time plus
    resolved duration is at most the end of the window. *)
Definition visits_end_within_hours : Prop :=
  forall w item x wh patient t start e,
    commits w item x ->
    windows (db w) (TimeSlotOptimizer.item_professional_id item)
                   (TimeSlotOptimizer.item_date item) = [wh] ->
    patients_with (db w) (TimeSlotOptimizer.item_patient_id item) = [patient] ->
    TimeSlotOptimizer.suggestedTime x = Some t ->
    TimeSlotOptimizer.minutes_of t = Some start ->
    TimeSlotOptimizer.minutes_of (end_time wh) = Some e ->
    start + visit_duration patient <= e.

(** The committed visit starts at a slot of the window [wh] and that slot
    plus sixty minutes ends within the window; so does the slot plus the
    visit length of [patient], unless an explicit estimate above sixty
    minutes overrides the table. The visit length is a positive estimate
    or, without one, the table entry of a care type that names no
    inherited member. *)
Definition fits_sixty (wh : WorkingHours) (patient : Patient)
    (x : TimeSlotOptimizer.AssignResult) : Prop :=
  exists c,
    (c < 4)%nat /\
    TimeSlotOptimizer.suggestedTime x
      = Some (TimeSlotOptimizer.format_time (slot_start wh c)) /\
    forall start e,
      slot_start wh c = Some start ->
      TimeSlotOptimizer.minutes_of (end_time wh) = Some e ->
      start + 60 <= e /\
      ((forall v, estimated_care_duration patient = Some v -> v <= 60) ->
       (exists v, estimated_care_duration patient = Some v /\ 0 < v) \/
       own_key (care_needed patient) ->
       start + visit_duration patient <= e).

(** ** Sample data *)

(** 1970-01-05, a Monday. *)
Definition monday : Date := 4.

Definition wound_patient (id : Id) (estimate : option Z) : Patient :=
  {| patient_id := id; area := Some "Tuira";
     latitude := None; longitude := None;
     care_needed := Some "Wound Dressing";
     estimated_care_duration := estimate |}.

(** Professional 7 works on Mondays from [opens] to [closes]. *)
Definition clinic (opens closes : string) (ps : list Patient) : Store :=
  {| patients := ps;
     working_hours :=
       [{| wh_professional_id := 7; weekday := 1;
           start_time := opens; end_time := closes |}];
     patient_assignments := [];
     schedules := [];
     next_id := 100 |}.

Definition full_day : Store :=
  clinic "08:00:00" "16:00:00"
    [wound_patient 1 None; wound_patient 2 None; wound_patient 3 None;
     wound_patient 4 None; wound_patient 5 None].

(** One hour of work, and a patient whose visit is estimated at ninety
    minutes. *)
Definition short_day : Store :=
  clinic "08:00:00" "09:00:00" [wound_patient 1 (Some 90)].

Definition visit (patientId : Id) : TimeSlotOptimizer.BulkItem :=
  {| TimeSlotOptimizer.item_patient_id := patientId;
     TimeSlotOptimizer.item_professional_id := 7;
     TimeSlotOptimizer.item_date := monday |}.

Definition calm (s : Store) : World := {| db := s; plan := [] |}.

(** A successful result with the row the store created. *)
Definition assigned (rowId patientId : Id) (t : string) : TimeSlotOptimizer.AssignResult :=
  {| TimeSlotOptimizer.success := true;
     TimeSlotOptimizer.assignment :=
       Some {| assignment_id := rowId; a_patient_id := patientId;
               a_professional_id := 7; assigned_by_id := None;
               assignment_reason := None;
               scheduled_visit_date := Some monday;
               scheduled_visit_time := Some t;
               status := active |};
     TimeSlotOptimizer.suggestedTime := Some t;
     TimeSlotOptimizer.res_error := None |}.


(** ** Travel time *)

(** Travel time as the specification gives it, from the distance. *)
Definition travelTime_spec (distance : R) : Z :=
  Zceil (distance * 1.3 / 30 * 60 + 5)%R.

(** Travel time strictly increases with the distance. *)
Definition travel_time_strictly_increasing : Prop :=
  forall lat1 lng1 lat2 lng2 lat1' lng1' lat2' lng2' : R,
    (GeoUtils.calculateDistance lat1 lng1 lat2 lng2
     < GeoUtils.calculateDistance lat1' lng1' lat2' lng2')%R ->
    GeoUtils.calculateTravelTime lat1 lng1 lat2 lng2
    < GeoUtils.calculateTravelTime lat1' lng1' lat2' lng2'.

(** ** Batches *)



(** ** Routes *)




(** ** Answers and results *)

(** An answer of the slot calculator that grants nothing. *)
Definition refusal (why : string) (count capacity : option nat)
  : TimeSlotOptimizer.SlotResult :=
  {| TimeSlotOptimizer.available := false;
     TimeSlotOptimizer.reason := Some why;
     TimeSlotOptimizer.slot_suggestedTime := None;
     TimeSlotOptimizer.slots := None;
     TimeSlotOptimizer.patientCountOnDay := count;
     TimeSlotOptimizer.maxCapacity := capacity |}.

(** The number of successful results of a batch for a professional and a
    date. *)
Definition successes (rs : list (TimeSlotOptimizer.BulkItem * TimeSlotOptimizer.AssignResult))
    (professionalId : Id) (d : Date) : nat :=
  length (List.filter
            (fun ir => TimeSlotOptimizer.success (snd ir)
                       && Nat.eqb (TimeSlotOptimizer.item_professional_id (fst ir))
                                  professionalId
                       && (TimeSlotOptimizer.item_date (fst ir) =? d))
            rs).

(** The assignment table after the rows with a given id were given a
    status. *)
Definition with_status (id : Id) (st : Status) (l : list Assignment)
  : list Assignment :=
  map (fun a =>
         if Nat.eqb (assignment_id a) id then
           {| assignment_id := assignment_id a;
              a_patient_id := a_patient_id a;
              a_professional_id := a_professional_id a;
              assigned_by_id := assigned_by_id a;
              assignment_reason := assignment_reason a;
              scheduled_visit_date := scheduled_visit_date a;
              scheduled_visit_time := scheduled_visit_time a;
              status := st |}
         else a) l.

(** The rows of the assignment table with a given id. *)
Definition assignments_with (id : Id) (l : list Assignment) : list Assignment :=
  List.filter (fun a => Nat.eqb (assignment_id a) id) l.


(** The assignment row [smartAssignPatient] creates. *)
Definition visit_row (s : Store) (patientId professionalId : Id) (d : Date)
    (assignedById : option Id) (t : string) : Assignment :=
  {| assignment_id := next_id s;
     a_patient_id := patientId;
     a_professional_id := professionalId;
     assigned_by_id := assignedById;
     assignment_reason := None;
     scheduled_visit_date := Some d;
     scheduled_visit_time := Some t;
     status := active |}.

(** The row the reassignment handler creates: the patient of the old
    assignment with the new professional, active, without visit date or
    time. *)
Definition successor_row (s : Store) (old : Assignment) (newProfessionalId : Id)
    (why : option string) (user : Id) : Assignment :=
  {| assignment_id := next_id s;
     a_patient_id := a_patient_id old;
     a_professional_id := newProfessionalId;
     assigned_by_id := Some user;
     assignment_reason :=
       Some (if JS.truthy_string why then default "" why else "Reassignment");
     scheduled_visit_date := None;
     scheduled_visit_time := None;
     status := active |}.

(** * Properties *)

(** ** Strings *)

Section StringFacts.

Lemma append_empty (s : string) : "" ++ s = s.
Proof. reflexivity. Qed.

Lemma append_String (c : ascii) (s t : string) :
  String c s ++ t = String c (s ++ t).
Proof. reflexivity. Qed.

Lemma prefix_empty (s : string) : String.prefix "" s = true.
Proof. now destruct s. Qed.

Lemma prefix_true_iff (t s : string) :
  String.prefix t s = true <-> exists post, s = t ++ post.
Proof.
  revert s. induction t as [|c t IH]; intros s.
  - rewrite prefix_empty. split; [intros _; now exists s | reflexivity].
  - destruct s as [|c' s]; simpl.
    + split; [discriminate | intros [post H]; discriminate].
    + destruct (ascii_dec c c') as [->|Hne].
      * rewrite IH. split; intros [post H]; exists post.
        -- now rewrite append_String, H.
        -- rewrite append_String in H. now injection H.
      * split; [discriminate|]. intros [post H].
        rewrite append_String in H. injection H as H1 H2. congruence.
Qed.

Lemma includes_true_iff (s t : string) :
  JS.includes s t = true <-> substring t s.
Proof.
  induction s as [|c s IH]; cbn [JS.includes].
  - rewrite orb_false_r, prefix_true_iff. split.
    + intros [post H]. now exists "", post.
    + intros [pre [post H]]. destruct pre; [now exists post | discriminate].
  - rewrite orb_true_iff, prefix_true_iff, IH. split.
    + intros [[post H] | [pre [post H]]].
      * now exists "", post.
      * exists (String c pre), post. now rewrite append_String, H.
    + intros [pre [post H]]. destruct pre as [|c' pre].
      * left. now exists post.
      * right. rewrite append_String in H. injection H as _ H. now exists pre, post.
Qed.

End StringFacts.

(** ** Skill matching *)

Section SkillMatch.

Import TimeSlotOptimizer.

Lemma care_types_lower_case careType validSpecs :
  In (careType, validSpecs) CARE_SPECIALTY_MAP ->
  JS.toLowerCase careType = careType.
Proof.
  assert (H : Forall (fun e => JS.toLowerCase (fst e) = fst e) CARE_SPECIALTY_MAP)
    by repeat constructor.
  intros Hin. exact (proj1 (List.Forall_forall _ _) H _ Hin).
Qed.

Lemma scan_care_types_true_iff care (profSpecs : list string) entries :
  scan_care_types care profSpecs entries = true <->
  exists careType validSpecs validSpec profSpec,
    In (careType, validSpecs) entries /\ substring careType care /\
    In validSpec validSpecs /\ In profSpec profSpecs /\
    (substring (JS.toLowerCase validSpec) profSpec \/
     substring profSpec (JS.toLowerCase validSpec)).
Proof.
  induction entries as [|[careType validSpecs] rest IH]; cbn [scan_care_types].
  - split; [discriminate | now intros (? & ? & ? & ? & [] & _)].
  - set (hasValid := existsb _ validSpecs).
    assert (Hvalid : hasValid = true <->
              exists validSpec profSpec, In validSpec validSpecs /\ In profSpec profSpecs /\
                (substring (JS.toLowerCase validSpec) profSpec \/
                 substring profSpec (JS.toLowerCase validSpec))).
    { unfold hasValid. rewrite existsb_exists. split.
      - intros (v & Hv & H). apply existsb_exists in H as (p & Hp & H).
        apply orb_true_iff in H. rewrite !includes_true_iff in H. eauto.
      - intros (v & p & Hv & Hp & H). exists v. split; [assumption|].
        apply existsb_exists. exists p. split; [assumption|].
        apply orb_true_iff. now rewrite !includes_true_iff. }
    destruct (JS.includes care careType) eqn:Hinc.
    + destruct hasValid eqn:Hhas.
      * split; [intros _ | reflexivity].
        destruct (proj1 Hvalid eq_refl) as (v & p & Hv & Hp & H).
        exists careType, validSpecs, v, p.
        apply includes_true_iff in Hinc. simpl. auto.
      * rewrite IH. split.
        -- intros (k & vs & v & p & Hin & H). exists k, vs, v, p. simpl. tauto.
        -- intros (k & vs & v & p & [Heq | Hin] & Hsub & Hv & Hp & H).
           ++ injection Heq as <- <-.
              assert (false = true) by (apply Hvalid; eauto). discriminate.
           ++ exists k, vs, v, p. tauto.
    + rewrite IH. split.
      * intros (k & vs & v & p & Hin & H). exists k, vs, v, p. simpl. tauto.
      * intros (k & vs & v & p & [Heq | Hin] & Hsub & H).
        -- injection Heq as <- <-. apply includes_true_iff in Hsub. congruence.
        -- exists k, vs, v, p. tauto.
Qed.

(** C8. [checkSkillMatch] answers true exactly when both inputs are
    present and non-empty and either some specialization equals the care
    need up to letter case, or some key of the care-type table occurs in
    the care need and some specialization contains, or is contained in,
    one of that key's valid specializations (up to letter case); it
    answers false in every other case. *)
Theorem C8_checkSkillMatch_spec (careNeeded : option string)
    (specializations : option (list Specialization)) :
  checkSkillMatch careNeeded specializations = true <->
  matches_spec careNeeded specializations.
Proof.
  unfold checkSkillMatch, matches_spec.
  destruct careNeeded as [care|]; [|split; [discriminate | now intros (? & ? & ? & _)]].
  destruct specializations as [specs|]; [|split; [discriminate | now intros (? & ? & _ & ? & _)]].
  destruct (String.eqb care "") eqn:Hcare; cbn [orb].
  { apply String.eqb_eq in Hcare. split; [discriminate|].
    intros (c & l & [= <-] & _ & Hne & _). contradiction. }
  apply String.eqb_neq in Hcare.
  destruct specs as [|s0 specs'] eqn:Hspecs; cbn [length Nat.eqb].
  { split; [discriminate|]. intros (c & l & _ & [= <-] & _ & Hne & _). contradiction. }
  rewrite <- Hspecs. clear Hspecs s0 specs'.
  set (profSpecs := map _ specs).
  destruct (existsb _ profSpecs) eqn:Hexact.
  - split; [intros _ | reflexivity].
    apply existsb_exists in Hexact as (p & Hp & Heq).
    apply String.eqb_eq in Heq. subst p.
    apply in_map_iff in Hp as (s & Hs & Hin).
    exists care, specs. repeat split; try assumption.
    + intros ->. contradiction.
    + left. exists s. split; assumption.
  - rewrite scan_care_types_true_iff. split.
    + intros (k & vs & v & p & Hin & Hsub & Hv & Hp & H).
      apply in_map_iff in Hp as (s & <- & Hs).
      exists care, specs. repeat split; try assumption.
      * intros ->. contradiction.
      * right. exists k, vs, v, s. repeat split; try assumption.
        -- unfold ci_substring.
           now rewrite (care_types_lower_case _ _ Hin).
        -- unfold ci_related, ci_substring. tauto.
    + intros (c & l & [= <-] & [= <-] & _ & _ & [(s & Hs & Heq) | H]).
      * exfalso. assert (Ht : existsb (fun spec => String.eqb spec (JS.toLowerCase care)) profSpecs = true).
        { apply existsb_exists. exists (JS.toLowerCase (specialization s)). split.
          - apply in_map_iff. now exists s.
          - now apply String.eqb_eq. }
        congruence.
      * destruct H as (k & vs & v & s & Hin & Hsub & Hv & Hs & Hrel).
        exists k, vs, v, (JS.toLowerCase (specialization s)).
        repeat split; try assumption.
        -- unfold ci_substring in Hsub.
           now rewrite (care_types_lower_case _ _ Hin) in Hsub.
        -- apply in_map_iff. now exists s.
        -- unfold ci_related, ci_substring in Hrel. tauto.
Qed.

End SkillMatch.

(** ** Keys that name no inherited member *)

(** A decision procedure for [own_key] on a given name. *)
Lemma own_key_check (z : string) :
  forallb (fun n => negb (String.eqb z n)) Object_prototype_names = true ->
  own_key (Some z).
Proof.
  intros H z' [= <-] Hin.
  apply (proj1 (forallb_forall _ _) H) in Hin.
  now rewrite String.eqb_refl in Hin.
Qed.


(** ** Reasoning rules for asynchronous computations *)

Section HoareRules.

Context {A B : Type}.

Lemma hoare_ret (P : Store -> Prop) (a : A) (Q : Completion A -> Store -> Prop) :
  (forall s, P s -> Q (Returned a) s) -> hoare P (ret a) Q.
Proof. intros H w Hw. now apply H. Qed.

Lemma hoare_throw (P : Store -> Prop) (m : string) (Q : Completion A -> Store -> Prop) :
  (forall s, P s -> Q (Thrown m) s) -> hoare P (throw m) Q.
Proof. intros H w Hw. now apply H. Qed.

Lemma hoare_bind (P : Store -> Prop) (c : Async A) (k : A -> Async B)
    (R : Completion A -> Store -> Prop) (Q : Completion B -> Store -> Prop) :
  hoare P c R ->
  (forall a, hoare (R (Returned a)) (k a) Q) ->
  (forall m s, R (Thrown m) s -> Q (Thrown m) s) ->
  hoare P (bind c k) Q.
Proof.
  intros Hc Hk Ht w Hw. specialize (Hc w Hw). unfold bind.
  destruct (c w) as [[a|m] w1]; simpl in *.
  - now apply Hk.
  - now apply Ht.
Qed.

Lemma hoare_try_catch (P : Store -> Prop) (c : Async A) (h : string -> Async A)
    (R Q : Completion A -> Store -> Prop) :
  hoare P c R ->
  (forall a s, R (Returned a) s -> Q (Returned a) s) ->
  (forall m, hoare (R (Thrown m)) (h m) Q) ->
  hoare P (try_catch c h) Q.
Proof.
  intros Hc Hr Hh w Hw. specialize (Hc w Hw). unfold try_catch.
  destruct (c w) as [[a|m] w1]; simpl in *.
  - now apply Hr.
  - now apply Hh.
Qed.

Lemma hoare_supabase (P : Store -> Prop) (q : Store -> Reply A * Store)
    (Q : Completion (Reply A) -> Store -> Prop) :
  (forall s, P s -> Q (Returned (fst (q s))) (snd (q s))) ->
  (forall s m, P s -> Q (Returned {| data := None; error := Some m |}) s) ->
  (forall s m, P s -> Q (Thrown m) s) ->
  hoare P (supabase q) Q.
Proof.
  intros Hdone Hfail Hrej w Hw. unfold supabase.
  destruct (plan w) as [|[|m|m] rest]; simpl;
    try (destruct (q (db w)) as [r s] eqn:Hq; simpl;
         specialize (Hdone _ Hw); now rewrite Hq in Hdone);
    auto.
Qed.

Lemma hoare_consequence (P P' : Store -> Prop) (c : Async A)
    (Q Q' : Completion A -> Store -> Prop) :
  hoare P' c Q' ->
  (forall s, P s -> P' s) ->
  (forall r s, Q' r s -> Q r s) ->
  hoare P c Q.
Proof. intros H HP HQ w Hw. apply HQ, H, HP, Hw. Qed.

End HoareRules.

Lemma hoare_assume {A} (phi : Prop) (P : Store -> Prop) (c : Async A)
    (Q : Completion A -> Store -> Prop) :
  (phi -> hoare P c Q) -> hoare (fun s => phi /\ P s) c Q.
Proof. intros H w [Hphi Hw]. now apply H. Qed.

(** ** The slot calculator *)

Section SlotCalculator.

Import TimeSlotOptimizer.

Lemma single_data {D} (l : list D) (x : D) :
  data (single l) = Some x -> l = [x].
Proof.
  destruct l as [|y [|z l]]; simpl; try discriminate. now intros [= ->].
Qed.

Lemma slots_spec (s0 : Store) (professionalId : Id) (d : Date)
    (existing : list InBatch) :
  hoare (eq s0) (calculateAvailableTimeSlots professionalId d existing)
    (fun r s => s = s0 /\
                exists x, r = Returned x /\ granted s0 professionalId d existing x).
Proof.
  unfold calculateAvailableTimeSlots.
  apply hoare_try_catch with
    (R := fun r s => s = s0 /\
            forall x, r = Returned x -> granted s0 professionalId d existing x).
  - apply hoare_bind with
      (R := fun r s => s = s0 /\
              forall rep wh, r = Returned rep -> error rep = None ->
                data rep = Some wh -> windows s0 professionalId d = [wh]).
    + apply hoare_supabase.
      * intros s <-. simpl. split; [reflexivity|].
        intros rep wh [= <-] _ Hd. now apply single_data in Hd.
      * intros s m <-. split; [reflexivity|]. intros rep wh [= <-]. discriminate.
      * intros s m <-. split; [reflexivity|]. discriminate.
    + intros rep.
      destruct (error rep) as [e|] eqn:He; [|destruct (data rep) as [wh|] eqn:Hd];
        try (apply hoare_ret; intros s [-> _]; split; [reflexivity|];
             intros x [= <-]; intros Hav; discriminate Hav).
      apply hoare_bind with
        (R := fun r s => s = s0 /\ windows s0 professionalId d = [wh] /\
                forall rep', r = Returned rep' -> error rep' = None ->
                  data rep' = Some (active_on professionalId d (patient_assignments s0))).
      * apply hoare_supabase.
        -- intros s [-> Hw]. simpl. repeat split; eauto.
           intros rep' [= <-] _. reflexivity.
        -- intros s m [-> Hw]. repeat split; eauto. intros rep' [= <-]. discriminate.
        -- intros s m [-> Hw]. repeat split; eauto. discriminate.
      * intros rep'. destruct (error rep') as [e'|] eqn:He'.
        { apply hoare_ret. intros s (-> & _). split; [reflexivity|].
          intros x [= <-] Hav. discriminate Hav. }
        intros w (Hs & Hw & Hrows).
        specialize (Hrows rep' eq_refl He'). rewrite Hrows.
        fold (load s0 professionalId d).
        fold (in_batch_load existing professionalId d).
        set (c := (load s0 professionalId d + in_batch_load existing professionalId d)%nat).
        cbv zeta. fold (slot_start wh c).
        destruct (MAX_PATIENTS_PER_DAY <=? c)%nat eqn:Hcap;
          [|destruct (JS.gt _ _) eqn:Hgt]; unfold ret; cbn [fst snd];
          (split; [assumption|]); intros x [= <-]; intros Hav;
          try discriminate Hav.
        apply Nat.leb_gt in Hcap.
        exists wh, (format_time (slot_start wh c)). cbn [slot_suggestedTime].
        repeat split; auto.
      * intros m s [-> _]. split; [reflexivity|]. discriminate.
    + intros m s [-> _]. split; [reflexivity|]. discriminate.
  - intros x s [-> H]. split; [reflexivity|]. eauto.
  - intros m. apply hoare_ret. intros s [-> _]. split; [reflexivity|].
    eexists. split; [reflexivity|]. intros Hav. discriminate Hav.
Qed.

End SlotCalculator.

(** ** Single assignment *)

Section SmartAssign.

Import TimeSlotOptimizer.

Lemma smartAssignPatient_spec (s0 : Store) (patientId professionalId : Id)
    (d : Date) (assignedById : option Id) :
  hoare (eq s0) (smartAssignPatient patientId professionalId d assignedById)
    (fun r s => (exists x, r = Returned x) /\
                assign_outcome s0 patientId professionalId d r s).
Proof.
  assert (Hunchanged : forall r : Completion AssignResult,
            (forall x, r = Returned x -> success x = false) ->
            assign_outcome s0 patientId professionalId d r s0).
  { intros r Hr. split; [reflexivity|]. split; [reflexivity|]. left. now split. }
  unfold smartAssignPatient.
  apply hoare_try_catch with (R := assign_outcome s0 patientId professionalId d).
  - apply hoare_bind with
      (R := fun r s =>
              (forall rep, r = Returned rep -> error rep = None ->
                 forall pt, data rep = Some pt -> patients_with s0 patientId = [pt])
              /\ s = s0).
    + apply hoare_supabase.
      * intros s <-. split; [|reflexivity]. intros rep [= <-] _ pt Hd.
        now apply single_data in Hd.
      * intros s m <-. split; [|reflexivity]. intros rep [= <-]. discriminate.
      * intros s m <-. split; [|reflexivity]. discriminate.
    + intros p. apply hoare_assume. intros Hp. specialize (Hp p eq_refl).
      destruct (error p) as [e|] eqn:He.
      { apply hoare_throw. intros s ->. apply Hunchanged. discriminate. }
      specialize (Hp eq_refl).
      apply hoare_bind with
        (R := fun r s => (exists x, r = Returned x /\ granted s0 professionalId d [] x)
                         /\ s = s0).
      * intros w Hs. destruct (slots_spec s0 professionalId d [] w (eq_sym Hs)) as [H1 H2].
        now split.
      * intros slots. apply hoare_assume. intros (x & [= <-] & Hg).
        destruct (available slots) eqn:Hav; cbn [negb].
        2:{ apply hoare_ret. intros s ->. apply Hunchanged. now intros x [= <-]. }
        destruct (Hg Hav) as (wh & t & Hw & Ht & Hfits).
        unfold in_batch_load in Hfits. cbn [List.filter length] in Hfits.
        rewrite Nat.add_0_r in Hfits. rewrite Ht.
        assert (Hcommitted : forall (r : Completion AssignResult) s row',
          (forall x, r = Returned x -> success x = true ->
             suggestedTime x = Some t /\ exists pt, data p = Some pt) ->
          patients s = patients s0 -> working_hours s = working_hours s0 ->
          a_professional_id row' = professionalId ->
          scheduled_visit_date row' = Some d ->
          scheduled_visit_time row' = Some t ->
          status row' = active ->
          patient_assignments s = (patient_assignments s0 ++ [row'])%list ->
          assign_outcome s0 patientId professionalId d r s).
        { intros r s row' Hr Hpat Hwh H1 H2 H3 H4 H5.
          split; [assumption|]. split; [assumption|]. right.
          exists wh, t, row'. do 7 (split; [assumption|]).
          intros x Hx Hsx. destruct (Hr x Hx Hsx) as [Hx1 [pt Hpt]].
          split; [assumption | eauto]. }
        apply hoare_bind with
          (R := fun r s =>
                  ((forall rep, r = Returned rep -> error rep <> None) /\ s = s0) \/
                  (exists row', r = Returned {| data := Some row'; error := None |} /\
                     a_professional_id row' = professionalId /\
                     scheduled_visit_date row' = Some d /\
                     scheduled_visit_time row' = Some t /\
                     status row' = active /\
                     s = {| patients := patients s0;
                            working_hours := working_hours s0;
                            patient_assignments := (patient_assignments s0 ++ [row'])%list;
                            schedules := schedules s0;
                            next_id := S (next_id s0) |})).
        -- apply hoare_supabase.
           ++ intros s ->. right. eexists. cbn [fst snd single]. repeat split.
           ++ intros s m ->. left. split; [|reflexivity]. now intros rep [= <-].
           ++ intros s m ->. left. split; [|reflexivity]. discriminate.
        -- intros inserted.
           destruct (error inserted) as [e|] eqn:Hie.
           { apply hoare_throw.
             intros s [[Hne ->] | (row' & _ & H1 & H2 & H3 & H4 & ->)].
             - apply Hunchanged. discriminate.
             - now apply (Hcommitted _ _ row'). }
           destruct (data p) as [patient|] eqn:Hdp.
           2:{ apply hoare_throw.
               intros s [[Hne ->] | (row' & _ & H1 & H2 & H3 & H4 & ->)].
               - apply Hunchanged. discriminate.
               - now apply (Hcommitted _ _ row'). }
           apply hoare_bind with
             (R := fun _ s =>
                     exists row',
                       patients s = patients s0 /\ working_hours s = working_hours s0 /\
                       a_professional_id row' = professionalId /\
                       scheduled_visit_date row' = Some d /\
                       scheduled_visit_time row' = Some t /\
                       status row' = active /\
                       patient_assignments s = (patient_assignments s0 ++ [row'])%list).
           ++ apply hoare_supabase;
                [intros s [[Hne ->] | (row' & Hr & H1 & H2 & H3 & H4 & ->)]
                |intros s m [[Hne ->] | (row' & Hr & H1 & H2 & H3 & H4 & ->)]
                |intros s m [[Hne ->] | (row' & Hr & H1 & H2 & H3 & H4 & ->)]];
                try (exfalso; apply (Hne inserted); [reflexivity|assumption]);
                exists row'; repeat split; assumption.
           ++ intros _. apply hoare_ret.
              intros s (row' & Hpat & Hwh & H1 & H2 & H3 & H4 & H5).
              apply (Hcommitted _ _ row'); try assumption.
              intros x [= <-] _. cbn [suggestedTime]. split; [reflexivity | eauto].
           ++ intros m s (row' & Hpat & Hwh & H1 & H2 & H3 & H4 & H5).
              apply (Hcommitted _ _ row'); try assumption. discriminate.
        -- intros m s [[Hne ->] | (row' & Hr & _)]; [|discriminate].
           apply Hunchanged. discriminate.
      * intros m s [(x & Hx & _) _]. discriminate.
    + intros m s [_ ->]. apply Hunchanged. discriminate.
  - intros a s H. split; [eauto | assumption].
  - intros m. apply hoare_ret. intros s H. split; [eauto|].
    destruct H as (Hpat & Hwh & [[Ha _] | (wh & t & row' & H1 & H2 & H3 & H4 & H5 & H6 & H7 & _)]).
    + split; [assumption|]. split; [assumption|]. left. split; [assumption|].
      now intros x [= <-].
    + split; [assumption|]. split; [assumption|]. right.
      exists wh, t, row'. do 7 (split; [assumption|]).
      intros x [= <-] Hs. discriminate Hs.
Qed.

End SmartAssign.

(** ** The daily capacity is an invariant *)

Section Capacity.

Import TimeSlotOptimizer.

Lemma active_on_app professionalId d (l : list Assignment) row :
  active_on professionalId d (l ++ [row]) =
  (active_on professionalId d l ++ active_on professionalId d [row])%list.
Proof. unfold active_on. apply List.filter_app. Qed.

Lemma load_after_insert (s s0 : Store) row professionalId d :
  patient_assignments s = (patient_assignments s0 ++ [row])%list ->
  load s professionalId d =
  (load s0 professionalId d + length (active_on professionalId d [row]))%nat.
Proof.
  intros H. unfold load. rewrite H, active_on_app. apply List.length_app.
Qed.

Lemma active_on_counts_row professionalId d row :
  scheduled_visit_date row = Some d ->
  a_professional_id row = professionalId ->
  forall professionalId' d',
    (length (active_on professionalId' d' [row]) <= 1)%nat /\
    (length (active_on professionalId' d' [row]) = 1%nat ->
     professionalId' = professionalId /\ d' = d).
Proof.
  intros Hd Hp p' d'. unfold active_on. cbn [List.filter]. rewrite Hd, Hp. cbn [date_is].
  destruct (Nat.eqb professionalId p') eqn:E1; cbn [andb];
    [destruct (d =? d') eqn:E2; cbn [andb]; [destruct (is_active (status row))|]|];
    cbn [length]; split; try lia; try discriminate.
  intros _. apply Nat.eqb_eq in E1. apply Z.eqb_eq in E2. now split.
Qed.

Lemma assign_outcome_capacity s0 patientId professionalId d r s :
  within_capacity s0 ->
  assign_outcome s0 patientId professionalId d r s ->
  within_capacity s.
Proof.
  intros Hcap (_ & _ & [[Hsame _] | (wh & t & row & _ & Hfits & Happ & Hp & Hd & _)]).
  - intros p' d'. unfold load. rewrite Hsame. apply Hcap.
  - intros p' d'. rewrite (load_after_insert s s0 row) by assumption.
    destruct (active_on_counts_row _ _ row Hd Hp p' d') as [Hle Hone].
    destruct Hfits as [Hlt _]. specialize (Hcap p' d').
    destruct (Nat.eq_dec (length (active_on p' d' [row])) 1%nat) as [E|E].
    + destruct (Hone E) as [-> ->]. lia.
    + lia.
Qed.

Lemma smartAssignPatient_capacity patientId professionalId d assignedById :
  hoare within_capacity
    (smartAssignPatient patientId professionalId d assignedById)
    (fun _ s => within_capacity s).
Proof.
  intros w Hw.
  destruct (smartAssignPatient_spec (db w) patientId professionalId d assignedById w eq_refl)
    as [_ H].
  eapply assign_outcome_capacity; eassumption.
Qed.

Lemma windows_ext (s s0 : Store) professionalId d :
  working_hours s = working_hours s0 ->
  windows s professionalId d = windows s0 professionalId d.
Proof. unfold windows. now intros ->. Qed.

Lemma patients_with_ext (s s0 : Store) id :
  patients s = patients s0 -> patients_with s id = patients_with s0 id.
Proof. unfold patients_with. now intros ->. Qed.

Lemma bulk_loop_spec (Inv : Store -> Prop)
    (Hinv : forall s patientId professionalId d r s',
        Inv s -> assign_outcome s patientId professionalId d r s' -> Inv s')
    (s0 : Store) assignedById assignments :
  forall results existing,
  hoare (fun s => patients s = patients s0 /\ working_hours s = working_hours s0 /\
                  Inv s)
    (bulk_loop assignments assignedById results existing)
    (fun r s =>
       patients s = patients s0 /\ working_hours s = working_hours s0 /\
       Inv s /\
       exists results' existing',
         r = Returned ((results ++ results')%list, existing') /\
         map fst results' = assignments /\
         Forall (fun ir => visit_granted s0 (fst ir) (snd ir)) results').
Proof.
  induction assignments as [|item rest IH]; intros results existing; cbn [bulk_loop].
  - apply hoare_ret. intros s (Hp & Hw & Hc). do 3 (split; [assumption|]).
    exists [], existing. rewrite List.app_nil_r. repeat split. constructor.
  - intros w (Hp & Hw & Hc). unfold bind.
    pose proof (smartAssignPatient_spec (db w) (item_patient_id item)
                  (item_professional_id item) (item_date item) assignedById w eq_refl)
      as [[x Hx] Hout].
    destruct (smartAssignPatient _ _ _ _ w) as [r w1] eqn:Hrun.
    cbn [fst snd] in Hx, Hout. subst r.
    assert (Hc1 : Inv (db w1)) by (eapply Hinv; eassumption).
    destruct Hout as (Hp1 & Hw1 & Hcases).
    assert (Hg : visit_granted s0 item x).
    { intros Hs. destruct Hcases as [[_ Hf] | (wh & t & row & Hwin & Hfits & _ & _ & _ & _ & _ & Hok)].
      - rewrite (Hf x eq_refl) in Hs. discriminate.
      - destruct (Hok x eq_refl Hs) as [Ht [patient Hpat]].
        exists wh, (load (db w) (item_professional_id item) (item_date item)), t, patient.
        rewrite <- (windows_ext _ _ _ _ Hw), <- (patients_with_ext _ _ _ Hp).
        split; [assumption|]. split; [assumption|]. split; assumption. }
    specialize (IH (results ++ [(item, x)])%list
                   (if success x
                    then (existing ++
                          [{| professional_id := item_professional_id item;
                              b_scheduled_visit_date := item_date item;
                              b_scheduled_visit_time := suggestedTime x |}])%list
                    else existing) w1).
    destruct IH as (Hp2 & Hw2 & Hc2 & results' & existing' & Hr & Hmap & Hall).
    { split; [congruence|]. split; [congruence | exact Hc1]. }
    do 3 (split; [assumption|]).
    exists ((item, x) :: results'), existing'. split; [|split].
    + rewrite Hr. now rewrite <- List.app_assoc.
    + cbn [map fst]. now rewrite Hmap.
    + now constructor.
Qed.

Lemma bulkAssignPatients_capacity assignments assignedById :
  hoare within_capacity (bulkAssignPatients assignments assignedById)
    (fun _ s => within_capacity s).
Proof.
  intros w Hw. unfold bulkAssignPatients, bind.
  destruct (bulk_loop_spec within_capacity assign_outcome_capacity
              (db w) assignedById assignments [] [] w)
    as (_ & _ & Hc & rs & ex & Hr & _); [now repeat split|].
  destruct (bulk_loop _ _ _ _ w) as [r w1]. cbn [fst snd] in *. subst r.
  exact Hc.
Qed.

Lemma is_active_reassigned (a : Assignment) (id : Id) :
  let a' := if Nat.eqb (assignment_id a) id then
              {| assignment_id := assignment_id a;
                 a_patient_id := a_patient_id a;
                 a_professional_id := a_professional_id a;
                 assigned_by_id := assigned_by_id a;
                 assignment_reason := assignment_reason a;
                 scheduled_visit_date := scheduled_visit_date a;
                 scheduled_visit_time := scheduled_visit_time a;
                 status := reassigned |}
            else a in
  a_professional_id a' = a_professional_id a /\
  scheduled_visit_date a' = scheduled_visit_date a /\
  (is_active (status a') = true -> a' = a).
Proof.
  cbv zeta. destruct (Nat.eqb (assignment_id a) id); cbn; auto.
  repeat split. discriminate.
Qed.

Lemma update_status_load (l : list Assignment) (id : Id) professionalId d :
  (length (active_on professionalId d
     (map (fun a =>
             if Nat.eqb (assignment_id a) id then
               {| assignment_id := assignment_id a;
                  a_patient_id := a_patient_id a;
                  a_professional_id := a_professional_id a;
                  assigned_by_id := assigned_by_id a;
                  assignment_reason := assignment_reason a;
                  scheduled_visit_date := scheduled_visit_date a;
                  scheduled_visit_time := scheduled_visit_time a;
                  status := reassigned |}
             else a) l))
   <= length (active_on professionalId d l))%nat.
Proof.
  induction l as [|a l IH]; [apply Nat.le_refl|].
  cbn [map]. unfold active_on in *. cbn [List.filter].
  destruct (is_active_reassigned a id) as (Hp & Hd & Hact). cbv zeta in Hp, Hd, Hact.
  rewrite Hp, Hd.
  destruct (Nat.eqb (a_professional_id a) professionalId && date_is d (scheduled_visit_date a));
    cbn [andb]; [|exact IH].
  destruct (is_active (status (if Nat.eqb (assignment_id a) id then _ else a))) eqn:E.
  - rewrite (Hact eq_refl) in E. rewrite E. cbn [length]. lia.
  - destruct (is_active (status a)); cbn [length]; lia.
Qed.

Lemma reassign_capacity oldAssignmentId newProfessionalId why user :
  hoare within_capacity
    (AssignmentsRoute.reassign oldAssignmentId newProfessionalId why user)
    (fun _ s => within_capacity s).
Proof.
  unfold AssignmentsRoute.reassign.
  apply hoare_try_catch with (R := fun _ s => within_capacity s); auto.
  2:{ intros m. now apply hoare_ret. }
  apply hoare_bind with (R := fun _ s => within_capacity s); auto.
  { apply hoare_supabase; auto.
    intros s Hs p d. cbn [snd]. unfold load. cbn [patient_assignments].
    eapply Nat.le_trans; [apply update_status_load | apply Hs]. }
  intros _.
  apply hoare_bind with (R := fun _ s => within_capacity s); auto.
  { apply hoare_supabase; auto. }
  intros old. destruct (error old); [now apply hoare_throw|].
  destruct (data old) as [oldAssignment|]; [|now apply hoare_throw].
  apply hoare_bind with (R := fun _ s => within_capacity s); auto.
  { apply hoare_supabase; auto.
    intros s Hs p d. cbn [snd].
    erewrite load_after_insert by reflexivity.
    unfold active_on. cbn [List.filter scheduled_visit_date date_is].
    rewrite andb_false_r. cbn [andb length].
    rewrite Nat.add_0_r. apply Hs. }
  intros inserted. destruct (error inserted); [now apply hoare_throw | now apply hoare_ret].
Qed.

Lemma step_capacity w w' :
  step w w' -> within_capacity (db w) -> within_capacity (db w').
Proof.
  intros [w0 patientId professionalId d assignedById
         |w0 assignments assignedById
         |w0 oldAssignmentId newProfessionalId why user
         |w0 p] Hw.
  - now apply smartAssignPatient_capacity.
  - now apply bulkAssignPatients_capacity.
  - now apply reassign_capacity.
  - exact Hw.
Qed.

(** C1. In every state reached through [smartAssignPatient],
    [bulkAssignPatients] and the reassignment handler, whatever the store
    calls do, no professional has more than four active assignments on
    any one date. *)
Theorem C1_daily_capacity_invariant (w : World) :
  reachable w ->
  forall professionalId d, (load (db w) professionalId d <= 4)%nat.
Proof.
  induction 1 as [w Hinit | w w' _ IH Hstep].
  - exact Hinit.
  - exact (step_capacity w w' Hstep IH).
Qed.

End Capacity.

(** ** Times of day *)

Section Times.

Import TimeSlotOptimizer.

Lemma padStart2_two_digits (n : Z) :
  0 <= n < 100 -> JS.padStart2 (JS.toString (Some n)) = two_digits n.
Proof.
  intros Hn.
  assert (Hall : forallb (fun k => String.eqb
                            (JS.padStart2 (JS.toString (Some (Z.of_nat k))))
                            (two_digits (Z.of_nat k)))
                         (seq 0 100) = true) by (vm_compute; reflexivity).
  rewrite forallb_forall in Hall.
  specialize (Hall (Z.to_nat n)). rewrite Z2Nat.id in Hall by lia.
  apply String.eqb_eq, Hall, in_seq. lia.
Qed.

Lemma format_time_two_digits (t : Z) :
  0 <= t < 6000 ->
  format_time (Some t) = two_digits (t / 60) ++ ":" ++ two_digits (t mod 60).
Proof.
  intros Ht. unfold format_time. cbn [JS.floor_div JS.rem].
  rewrite Z.rem_mod_nonneg by lia.
  rewrite !padStart2_two_digits; [reflexivity | |].
  - pose proof (Z.mod_pos_bound t 60). lia.
  - split; [apply Z.div_pos; lia | apply Z.div_lt_upper_bound; lia].
Qed.

Lemma digit_of_nonneg c d : JS.digit_of c = Some d -> 0 <= d.
Proof.
  unfold JS.digit_of. destruct (_ && _); [|discriminate]. intros [= <-]. lia.
Qed.

Lemma digits_nonneg s : forall acc v, 0 <= acc -> JS.digits acc s = Some v -> 0 <= v.
Proof.
  induction s as [|c s IH]; intros acc v Hacc; cbn [JS.digits].
  - intros [= <-]. exact Hacc.
  - destruct (JS.digit_of c) as [d|] eqn:Hd; [|discriminate].
    apply digit_of_nonneg in Hd. apply IH. lia.
Qed.

Lemma minutes_of_nonneg t v : minutes_of t = Some v -> 0 <= v.
Proof.
  unfold minutes_of, hours_minutes.
  assert (Hin : forall x, In (Some x) (map JS.Number (JS.split ":" t)) -> 0 <= x).
  { intros x Hx. apply in_map_iff in Hx as (s & Hs & _).
    unfold JS.Number in Hs. eapply digits_nonneg; [|exact Hs]. lia. }
  destruct (map JS.Number (JS.split ":" t)) as [|[h|] [|[m|] l]];
    cbn [JS.lift2]; try discriminate.
  intros [= <-].
  pose proof (Hin h (or_introl eq_refl)).
  pose proof (Hin m (or_intror (or_introl eq_refl))). lia.
Qed.

End Times.

(** ** Answers of the slot calculator when the store calls go through *)

Section SlotAnswers.

Import TimeSlotOptimizer.

Lemma supabase_carried_out {D} (q : Store -> Reply D * Store) (w : World) (n : nat) :
  carried_out (S n) w ->
  supabase q w =
    (Returned (fst (q (db w))), {| db := snd (q (db w)); plan := tl (plan w) |}) /\
  carried_out n {| db := snd (q (db w)); plan := tl (plan w) |}.
Proof.
  intros H. split.
  - unfold supabase. pose proof (H 0%nat ltac:(lia)) as H0.
    destruct (plan w) as [|[| |] rest]; cbn in H0; try discriminate;
      now destruct (q (db w)).
  - intros i Hi. cbn [plan]. specialize (H (S i) ltac:(lia)).
    destruct (plan w) as [|o rest]; cbn in *; [now destruct i | exact H].
Qed.

(** C5. When the two store reads go through: without a working-hours row
    for the weekday the slot calculator refuses with the no-working-hours
    reason and a count of 0; with one row and [c] patients counted, it
    refuses with ["<c>/4 patients"] when [c >= 4]; when [c < 4] it refuses
    with the no-time-slots reason exactly when [start + c * 120 + 60]
    exceeds the end of the window, and otherwise grants
    [start + c * 120] minutes formatted as zero-padded [HH:MM]. *)
Theorem C5_availableSlot (w : World) (professionalId : Id) (d : Date)
    (existing : list InBatch) :
  carried_out 2 w ->
  let c := (load (db w) professionalId d
            + in_batch_load existing professionalId d)%nat in
  let answer := fst (calculateAvailableTimeSlots professionalId d existing w) in
  (windows (db w) professionalId d = [] ->
     answer = Returned
       {| available := false; reason := Some "No working hours for this day";
          slot_suggestedTime := None; slots := None;
          patientCountOnDay := Some 0%nat; maxCapacity := Some 4%nat |}) /\
  (forall wh s e,
     windows (db w) professionalId d = [wh] ->
     minutes_of (start_time wh) = Some s ->
     minutes_of (end_time wh) = Some e ->
     let t := s + Z.of_nat c * 120 in
     ((4 <= c)%nat ->
        answer = Returned
          {| available := false;
             reason := Some ("Professional has " ++ count_text c ++ "/"
                             ++ count_text 4 ++ " patients");
             slot_suggestedTime := None; slots := None;
             patientCountOnDay := Some c; maxCapacity := Some 4%nat |}) /\
     ((c < 4)%nat -> e < t + 60 ->
        answer = Returned
          {| available := false; reason := Some "No time slots available";
             slot_suggestedTime := None; slots := None;
             patientCountOnDay := Some c; maxCapacity := None |}) /\
     ((c < 4)%nat -> t + 60 <= e ->
        answer = Returned
          {| available := true; reason := None;
             slot_suggestedTime := Some (format_time (Some t));
             slots := Some [format_time (Some t)];
             patientCountOnDay := Some c; maxCapacity := Some 4%nat |} /\
        (e < 6000 ->
         format_time (Some t) = two_digits (t / 60) ++ ":" ++ two_digits (t mod 60)))).
Proof.
  intros Hplan c answer.
  destruct (supabase_carried_out
              (fun s => (single (List.filter
                           (fun h => Nat.eqb (wh_professional_id h) professionalId
                                     && (weekday h =? weekday_of d))
                           (working_hours s)), s)) w 1 Hplan) as [Hcall1 Hplan1].
  cbn [fst snd] in Hcall1, Hplan1.
  destruct (supabase_carried_out
              (fun s => (rows (active_on professionalId d (patient_assignments s)), s))
              _ 0 Hplan1) as [Hcall2 _].
  cbn [fst snd db] in Hcall2.
  assert (Hrun : calculateAvailableTimeSlots professionalId d existing w =
    try_catch
      (fun w0 =>
         match error (single (windows (db w) professionalId d)),
               data (single (windows (db w) professionalId d)) with
         | None, Some workingHours =>
             (if (MAX_PATIENTS_PER_DAY <=? c)%nat then
                ret {| available := false;
                       reason := Some ("Professional has " ++ count_text c ++ "/"
                                       ++ count_text MAX_PATIENTS_PER_DAY ++ " patients");
                       slot_suggestedTime := None; slots := None;
                       patientCountOnDay := Some c;
                       maxCapacity := Some MAX_PATIENTS_PER_DAY |}
              else if JS.gt (JS.lift2 Z.add (slot_start workingHours c) (Some 60))
                            (minutes_of (end_time workingHours)) then
                ret {| available := false; reason := Some "No time slots available";
                       slot_suggestedTime := None; slots := None;
                       patientCountOnDay := Some c; maxCapacity := None |}
              else
                ret {| available := true; reason := None;
                       slot_suggestedTime := Some (format_time (slot_start workingHours c));
                       slots := Some [format_time (slot_start workingHours c)];
                       patientCountOnDay := Some c;
                       maxCapacity := Some MAX_PATIENTS_PER_DAY |})
               {| db := db w; plan := tl (tl (plan w)) |}
         | _, _ =>
             ret {| available := false; reason := Some "No working hours for this day";
                    slot_suggestedTime := None; slots := None;
                    patientCountOnDay := Some 0%nat; maxCapacity := Some 4%nat |}
                 {| db := db w; plan := tl (plan w) |}
         end)
      (fun message =>
         ret {| available := false; reason := Some message;
                slot_suggestedTime := None; slots := None;
                patientCountOnDay := None; maxCapacity := None |}) w).
  { unfold calculateAvailableTimeSlots, try_catch, bind, select_working_hours,
      select_active_assignments.
    fold (weekday_of d). rewrite Hcall1. fold (windows (db w) professionalId d).
    destruct (error (single (windows (db w) professionalId d)));
      [reflexivity|].
    destruct (data (single (windows (db w) professionalId d))); [|reflexivity].
    rewrite Hcall2. reflexivity. }
  subst answer. rewrite Hrun. unfold try_catch. split.
  - intros ->. reflexivity.
  - intros wh s e -> Hs He. cbn [single error data]. unfold slot_start.
    rewrite Hs, He. cbn [JS.lift2 JS.gt].
    set (t := s + Z.of_nat c * 120).
    split; [|split].
    + intros Hc. apply Nat.leb_le in Hc. unfold MAX_PATIENTS_PER_DAY. now rewrite Hc.
    + intros Hc Hlate. apply Nat.leb_gt in Hc. unfold MAX_PATIENTS_PER_DAY. rewrite Hc.
      apply Z.ltb_lt in Hlate. now rewrite Hlate.
    + intros Hc Hfit. split.
      * apply Nat.leb_gt in Hc. unfold MAX_PATIENTS_PER_DAY. rewrite Hc.
        apply Z.ltb_ge in Hfit. now rewrite Hfit.
      * intros He'. apply format_time_two_digits.
        apply minutes_of_nonneg in Hs. lia.
Qed.

End SlotAnswers.

(** ** Visits and the end of the working hours *)

Section VisitEnd.

Import TimeSlotOptimizer.

Lemma CARE_DURATION_at_most_sixty (k : string) (v : Z) :
  CARE_DURATION !! k = Some v -> v <= 60.
Proof.
  intros H. unfold CARE_DURATION in H.
  apply elem_of_list_to_map_2, list_elem_of_In in H.
  cbn [In] in H.
  repeat (destruct H as [H | H]; [injection H as _ <-; lia|]).
  contradiction.
Qed.

Lemma getCareDuration_at_most_sixty care estimate :
  (forall v, estimate = Some v -> v <= 60) ->
  getCareDuration care estimate <= 60.
Proof.
  intros Hest.
  assert (Htable : GeoUtils.or_default (CARE_DURATION !! key care)
                     (default 0 (CARE_DURATION !! "default")) <= 60).
  { replace (CARE_DURATION !! "default") with (Some 45) by (vm_compute; reflexivity).
    unfold GeoUtils.or_default. change (default 0 (Some 45)) with 45.
    destruct (CARE_DURATION !! key care) as [v|] eqn:E; [|lia].
    apply CARE_DURATION_at_most_sixty in E. destruct (v =? 0); lia. }
  unfold getCareDuration. destruct estimate as [v|]; [|exact Htable].
  destruct (0 <? v); [now apply Hest | exact Htable].
Qed.

Lemma slot_fits_sixty wh c t patient (x : AssignResult) :
  slot_fits wh c t -> suggestedTime x = Some t -> fits_sixty wh patient x.
Proof.
  intros (Hc & Hgt & ->) Hx. exists c. split; [exact Hc|]. split; [exact Hx|].
  intros start e Hs He. rewrite Hs, He in Hgt. cbn [JS.lift2 JS.gt] in Hgt.
  apply Z.ltb_ge in Hgt. split; [exact Hgt|].
  intros Hest _. unfold visit_duration.
  pose proof (getCareDuration_at_most_sixty (care_needed patient) _ Hest). lia.
Qed.

(** C3, as the code has it. A committed visit starts at a slot of the
    professional's window for that weekday, and the slot plus sixty
    minutes does not exceed the end of the window; the slot plus the
    resolved visit duration does not exceed it either when the patient has
    no explicit estimate above sixty minutes and the duration is a
    positive estimate or the table entry of a care type that is not the
    name of a member of [Object.prototype]. *)
Theorem C3_visit_fits_sixty_minutes (w : World) (item : BulkItem) (x : AssignResult) :
  commits w item x ->
  exists wh patient,
    windows (db w) (item_professional_id item) (item_date item) = [wh] /\
    patients_with (db w) (item_patient_id item) = [patient] /\
    fits_sixty wh patient x.
Proof.
  intros [assignedById Hrun Hok | assignments assignedById b Hrun Hin Hok].
  - destruct (smartAssignPatient_spec (db w) (item_patient_id item)
                (item_professional_id item) (item_date item) assignedById w eq_refl)
      as [_ (_ & _ & [[_ Hf] | (wh & t & row & Hw & Hfits & _ & _ & _ & _ & _ & Hx)])].
    + rewrite (Hf x Hrun) in Hok. discriminate.
    + destruct (Hx x Hrun Hok) as [Ht [patient Hp]].
      exists wh, patient. split; [exact Hw|]. split; [exact Hp|].
      exact (slot_fits_sixty wh _ t patient x Hfits Ht).
  - unfold bulkAssignPatients, bind in Hrun.
    destruct (bulk_loop_spec (fun _ => True) (fun _ _ _ _ _ _ _ _ => I)
                (db w) assignedById assignments [] [] w)
      as (_ & _ & _ & rs & ex & Hr & _ & Hall); [now repeat split|].
    destruct (bulk_loop _ _ _ _ w) as [r w1]. cbn [fst snd] in *. subst r.
    injection Hrun as <-. cbn [results fst] in Hin.
    rewrite List.Forall_forall in Hall.
    destruct (Hall _ Hin Hok) as (wh & c & t & patient & Hw & Hfits & Ht & Hp).
    exists wh, patient. split; [exact Hw|]. split; [exact Hp|].
    exact (slot_fits_sixty wh c t patient x Hfits Ht).
Qed.

End VisitEnd.

(** ** Batches *)

Section Batches.

Import TimeSlotOptimizer.

(** A batch is processed item by item: the items after a prefix start
    from the results, the in-batch list and the world the prefix left. *)
Lemma bulk_loop_app before after assignedById :
  forall results existing w,
    bulk_loop (before ++ after) assignedById results existing w =
    match bulk_loop before assignedById results existing w with
    | (Returned (rs, ex), wi) => bulk_loop after assignedById rs ex wi
    | (Thrown m, wi) => (Thrown m, wi)
    end.
Proof.
  induction before as [|item rest IH]; intros results existing w.
  - reflexivity.
  - cbn [app bulk_loop]. unfold bind.
    destruct (smartAssignPatient _ _ _ _ w) as [[x|m] w1]; [apply IH | reflexivity].
Qed.

Lemma load_row professionalId d (row : Assignment) :
  length (active_on professionalId d [row]) =
  if Nat.eqb (a_professional_id row) professionalId
     && date_is d (scheduled_visit_date row) && is_active (status row)
  then 1%nat else 0%nat.
Proof. unfold active_on. cbn [List.filter]. now destruct (_ && _). Qed.

Lemma in_batch_load_app existing (entry : InBatch) professionalId d :
  in_batch_load (existing ++ [entry]) professionalId d =
  (in_batch_load existing professionalId d +
   if Nat.eqb (professional_id entry) professionalId
      && (b_scheduled_visit_date entry =? d)%Z
   then 1 else 0)%nat.
Proof.
  unfold in_batch_load. rewrite List.filter_app, List.length_app.
  cbn [List.filter]. now destruct (_ && _).
Qed.

(** Every entry of the in-batch list stands for an active row in the
    store. *)
Lemma bulk_loop_accounts assignments assignedById :
  forall results existing w results' existing' w',
    bulk_loop assignments assignedById results existing w
      = (Returned (results', existing'), w') ->
    forall professionalId d,
      (load (db w) professionalId d + in_batch_load existing' professionalId d
       <= load (db w') professionalId d + in_batch_load existing professionalId d)%nat.
Proof.
  induction assignments as [|item rest IH];
    intros results existing w results' existing' w' Hrun p d.
  - cbn in Hrun. injection Hrun as _ <- <-. lia.
  - cbn [bulk_loop] in Hrun. unfold bind in Hrun.
    destruct (smartAssignPatient_spec (db w) (item_patient_id item)
                (item_professional_id item) (item_date item) assignedById w eq_refl)
      as [[x Hx] (_ & _ & Hcases)].
    destruct (smartAssignPatient _ _ _ _ w) as [r w1]. cbn [fst snd] in Hx, Hcases.
    subst r. specialize (IH _ _ _ _ _ _ Hrun p d).
    enough (load (db w) p d +
            in_batch_load (if success x
                           then (existing ++
                                 [{| professional_id := item_professional_id item;
                                     b_scheduled_visit_date := item_date item;
                                     b_scheduled_visit_time := suggestedTime x |}])%list
                           else existing) p d
            <= load (db w1) p d + in_batch_load existing p d)%nat by lia.
    destruct Hcases as [[Hsame Hfail] | (wh & t & row & _ & _ & Happ & Hp & Hd & _ & Hst & _)].
    + rewrite (Hfail x eq_refl). unfold load. rewrite Hsame. lia.
    + rewrite (load_after_insert (db w1) (db w) row) by assumption.
      rewrite load_row, Hp, Hd, Hst. cbn [date_is is_active]. rewrite andb_true_r.
      destruct (success x); [|lia].
      rewrite in_batch_load_app.
      cbn [professional_id b_scheduled_visit_date]. lia.
Qed.


End Batches.

(** ** The code on sample data *)

Section Samples.

Import TimeSlotOptimizer.

(** The claim C3 as stated fails: in a window from 08:00 to 09:00 a
    patient whose visit is estimated at 90 minutes is assigned at 08:00,
    and 08:00 plus 90 minutes is past 09:00. *)
Lemma C3_counterexample : ~ visits_end_within_hours.
Proof.
  intros claim.
  specialize (claim (calm short_day) (visit 1) (assigned 100 1 "08:00")
                {| wh_professional_id := 7; weekday := 1;
                   start_time := "08:00:00"; end_time := "09:00:00" |}
                (wound_patient 1 (Some 90)) "08:00" 480 540).
  assert (Hcommit : commits (calm short_day) (visit 1) (assigned 100 1 "08:00"))
    by (apply (commits_one _ _ _ None); vm_compute; reflexivity).
  specialize (claim Hcommit eq_refl eq_refl eq_refl eq_refl eq_refl).
  vm_compute in claim. now apply claim.
Qed.

Lemma C3_witness :
  commits (calm full_day) (visit 1) (assigned 100 1 "08:00") /\
  exists wh patient,
    windows (db (calm full_day)) 7 monday = [wh] /\
    patients_with (db (calm full_day)) 1 = [patient] /\
    fits_sixty wh patient (assigned 100 1 "08:00").
Proof.
  assert (Hcommit : commits (calm full_day) (visit 1) (assigned 100 1 "08:00"))
    by (apply (commits_one _ _ _ None); vm_compute; reflexivity).
  split; [exact Hcommit|].
  exact (C3_visit_fits_sixty_minutes (calm full_day) (visit 1) _ Hcommit).
Defined.

Lemma C1_witness :
  let w := snd (bulkAssignPatients [visit 1; visit 2; visit 3; visit 4; visit 5]
                  None (calm full_day)) in
  reachable w /\ (load (db w) 7 monday <= 4)%nat.
Proof.
  intros w.
  assert (Hreach : reachable w).
  { apply (reachable_step (calm full_day)); [|apply step_assignBulk].
    apply reachable_initial. intros p d. apply Nat.le_0_l. }
  split; [exact Hreach|].
  exact (C1_daily_capacity_invariant w Hreach 7%nat monday).
Defined.

Lemma C5_witness :
  carried_out 2 (calm full_day) /\
  fst (calculateAvailableTimeSlots 7 monday [] (calm full_day)) =
    Returned {| available := true; reason := None;
                slot_suggestedTime := Some "08:00"; slots := Some ["08:00"];
                patientCountOnDay := Some 0%nat; maxCapacity := Some 4%nat |}.
Proof.
  assert (Hplan : carried_out 2 (calm full_day))
    by (intros [|[|i]] _; reflexivity).
  split; [exact Hplan|].
  destruct (C5_availableSlot (calm full_day) 7 monday [] Hplan) as [_ Hrow].
  destruct (Hrow {| wh_professional_id := 7; weekday := 1;
                    start_time := "08:00:00"; end_time := "16:00:00" |}
                 480 960 eq_refl eq_refl eq_refl) as (_ & _ & Hgrant).
  destruct Hgrant as [Hanswer _]; [vm_compute; lia | vm_compute; discriminate |].
  exact Hanswer.
Defined.

(** C4, at a failing input. The patient read, the two reads of the slot
    calculator and the assignment insert go through, and the insert of the
    schedule entry reports an error: [smartAssignPatient] answers success,
    with no error, although no schedule entry exists.  The sibling cases
    end as the claim says: an assignment insert that reports an error or
    is rejected, and a schedule insert that is rejected, give a failure
    result. *)
Theorem C4_schedule_error_reported_as_success :
  let run outcomes :=
    smartAssignPatient 1 7 monday None {| db := full_day; plan := outcomes |} in
  (fst (run [Done; Done; Done; Done; Failed "schedules: insert failed"])
     = Returned (assigned 100 1 "08:00") /\
   schedules (db (snd (run [Done; Done; Done; Done;
                            Failed "schedules: insert failed"]))) = [] /\
   length (patient_assignments
             (db (snd (run [Done; Done; Done; Done;
                            Failed "schedules: insert failed"])))) = 1%nat) /\
  fst (run [Done; Done; Done; Failed "insert failed"])
    = Returned (failure (Some "insert failed")) /\
  fst (run [Done; Done; Done; Rejected "fetch failed"])
    = Returned (failure (Some "fetch failed")) /\
  fst (run [Done; Done; Done; Done; Rejected "fetch failed"])
    = Returned (failure (Some "fetch failed")).
Proof. vm_compute. repeat split. Qed.

End Samples.

Section BatchSamples.

Import TimeSlotOptimizer.




End BatchSamples.

(** ** The route optimiser *)

Section Route.

Import GeoUtils.

Lemma nearest_scan_range currentLocation (remaining : list Patient) :
  forall i nearestIndex nearestDistance,
    let k := nearest_scan currentLocation remaining i nearestIndex nearestDistance in
    k = nearestIndex \/ (i <= k < i + length remaining)%nat.
Proof.
  induction remaining as [|p rest IH]; intros i ni nd; cbn [nearest_scan length].
  - now left.
  - destruct (closer _ nd).
    + destruct (IH (S i) i (Some (route_distance currentLocation p))) as [-> | H];
        right; lia.
    + destruct (IH (S i) ni nd) as [-> | H]; [now left | right; lia].
Qed.

Lemma nearest_scan_in_range currentLocation (remaining : list Patient) :
  remaining <> [] ->
  (nearest_scan currentLocation remaining 0 0 None < length remaining)%nat.
Proof.
  intros Hne.
  destruct (nearest_scan_range currentLocation remaining 0 0 None) as [-> | H];
    [|lia].
  destruct remaining; [contradiction | cbn; lia].
Qed.

Lemma splice1_in_range {A} (l : list A) (i : nat) :
  (i < length l)%nat ->
  exists x l', splice1 l i = ([x], l') /\ Permutation l (x :: l').
Proof.
  revert i. induction l as [|a l IH]; intros i Hi; cbn [length] in Hi; [lia|].
  destruct i as [|i].
  - exists a, l. split; reflexivity.
  - destruct (IH i ltac:(lia)) as (x & l' & Hs & Hp).
    unfold splice1 in *. cbn [skipn firstn app].
    injection Hs as H1 H2. exists x, (a :: l'). rewrite H1, H2. split; [reflexivity|].
    rewrite Hp. apply perm_swap.
Qed.

Lemma visit_permutation :
  forall turns remaining optimized currentLocation,
    (length remaining <= turns)%nat ->
    Permutation (visit turns remaining optimized currentLocation)
                (optimized ++ remaining).
Proof.
  induction turns as [|turns IH]; intros remaining optimized cur Hlen.
  - destruct remaining; [|cbn in Hlen; lia]. cbn. now rewrite List.app_nil_r.
  - destruct remaining as [|p rest] eqn:Hrem.
    + cbn. now rewrite List.app_nil_r.
    + rewrite <- Hrem in *. 
      assert (Hne : remaining <> []) by (rewrite Hrem; discriminate).
      pose proof (nearest_scan_in_range cur remaining Hne) as Hidx.
      destruct (splice1_in_range remaining _ Hidx) as (x & l' & Hs & Hp).
      assert (Hstep : visit (S turns) remaining optimized cur =
                      visit turns l' (optimized ++ [x])
                        {| lat := latitude x; lng := longitude x; loc_area := area x |}).
      { rewrite Hrem in *. cbn [visit]. now rewrite Hs. }
      rewrite Hstep, IH.
      * rewrite <- List.app_assoc. cbn [app]. now rewrite Hp.
      * apply Permutation_length in Hp. cbn [length] in Hp. lia.
Qed.

(** C9. The route the optimiser returns is a permutation of the patients
    it was given: the same patients, each as many times as in the input,
    and so as many of them. *)
Theorem C9_route_is_permutation (patients : list Patient)
    (startLocation : option Location) :
  Permutation (optimizeRouteByDistance (Some patients) startLocation) patients /\
  length (optimizeRouteByDistance (Some patients) startLocation) = length patients.
Proof.
  assert (H : Permutation (optimizeRouteByDistance (Some patients) startLocation)
                          patients).
  { unfold optimizeRouteByDistance.
    destruct patients as [|p [|q rest]]; [reflexivity | reflexivity |].
    now rewrite visit_permutation. }
  split; [exact H | now apply Permutation_length].
Qed.

End Route.

(** ** Distance and travel time *)

Section TravelTime.

Import GeoUtils.
Open Scope R_scope.




Lemma calculateTravelTime_spec lat1 lng1 lat2 lng2 :
  calculateTravelTime lat1 lng1 lat2 lng2 =
  travelTime_spec (calculateDistance lat1 lng1 lat2 lng2).
Proof. reflexivity. Qed.

Lemma travelTime_spec_monotone (d1 d2 : R) :
  d1 <= d2 -> (travelTime_spec d1 <= travelTime_spec d2)%Z.
Proof. intros H. unfold travelTime_spec. apply Zceil_le. lra. Qed.



(** Along a meridian the distance is the arc: the radius times the
    difference of the latitudes in radians. *)
Lemma distance_along_meridian (lat1 lat2 lng : R) :
  0 <= lat2 - lat1 < 180 ->
  calculateDistance lat1 lng lat2 lng = 6371 * ((lat2 - lat1) * (PI / 180)).
Proof.
  intros Hlat. unfold calculateDistance. cbv zeta.
  pose proof PI_RGT_0 as Hpi.
  set (x := toRadians (lat2 - lat1) / 2).
  assert (Hx : 0 <= x < PI / 2).
  { unfold x, toRadians. split.
    - apply Rmult_le_pos; [|lra]. apply Rmult_le_pos; lra.
    - assert ((lat2 - lat1) * (PI / 180) < 180 * (PI / 180)).
      { apply Rmult_lt_compat_r; lra. }
      lra. }
  replace (toRadians (lng - lng) / 2) with 0 by (unfold toRadians; lra).
  rewrite sin_0, !Rmult_0_r, Rplus_0_r.
  assert (Hsin : 0 <= sin x) by (apply sin_ge_0; lra).
  assert (Hcos : 0 < cos x) by (apply cos_gt_0; lra).
  replace (1 - sin x * sin x) with (cos x * cos x)
    by (pose proof (sin2_cos2 x) as H; unfold Rsqr in H; lra).
  rewrite !sqrt_square by lra.
  unfold JS.atan2. destruct (Rlt_dec 0 (cos x)); [|contradiction].
  change (sin x / cos x) with (tan x). rewrite atan_tan by lra.
  unfold x, toRadians. lra.
Qed.

(** 111 metres and 222 metres north of the same point in Oulu: the
    distances differ, both travel times are 6 minutes. *)
Lemma six_minutes (north : R) :
  0 < north <= 0.002 ->
  calculateTravelTime 65 25.47 (65 + north) 25.47 = 6%Z.
Proof.
  intros Hn. unfold calculateTravelTime. cbv zeta.
  rewrite distance_along_meridian by lra.
  unfold AVERAGE_SPEED_KMH, MIN_BUFFER_MINUTES.
  pose proof PI_RGT_0 as Hpi. pose proof PI_4 as Hpi4.
  replace (65 + north - 65) with north by lra.
  assert (0 < north * PI <= 0.002 * 4).
  { split; [apply Rmult_lt_0_compat; lra|].
    apply Rmult_le_compat; lra. }
  apply Zceil_eq. lra.
Qed.

(** The claim C7 as stated fails: rounding up to whole minutes makes the
    travel time constant over a stretch of distances. *)
Lemma C7_counterexample : ~ travel_time_strictly_increasing.
Proof.
  intros claim.
  specialize (claim 65 25.47 (65 + 0.001) 25.47 65 25.47 (65 + 0.002) 25.47).
  rewrite !six_minutes in claim by lra.
  rewrite !distance_along_meridian in claim by lra.
  pose proof PI_RGT_0 as Hpi.
  assert (H : (6 < 6)%Z); [|lia].
  apply claim. apply Rmult_lt_compat_l; [lra|].
  apply Rmult_lt_compat_r; lra.
Qed.

Lemma travelTime_spec_next_minute (d : R) :
  travelTime_spec (d + 5 / 13) = (travelTime_spec d + 1)%Z.
Proof.
  unfold travelTime_spec. rewrite <- Zceil_addz. f_equal. lra.
Qed.

(** C7, as the code has it. The travel time never decreases when the
    distance increases, and it is strictly greater when the distance is
    greater by 5/13 km (one minute of travel) or more. *)
Theorem C7_travel_time_monotone (lat1 lng1 lat2 lng2 lat1' lng1' lat2' lng2' : R) :
  calculateDistance lat1 lng1 lat2 lng2
    <= calculateDistance lat1' lng1' lat2' lng2' ->
  (calculateTravelTime lat1 lng1 lat2 lng2
   <= calculateTravelTime lat1' lng1' lat2' lng2')%Z /\
  (calculateDistance lat1 lng1 lat2 lng2 + 5 / 13
     <= calculateDistance lat1' lng1' lat2' lng2' ->
   (calculateTravelTime lat1 lng1 lat2 lng2
    < calculateTravelTime lat1' lng1' lat2' lng2')%Z).
Proof.
  intros H. rewrite !calculateTravelTime_spec. split.
  - now apply travelTime_spec_monotone.
  - intros Hfar. apply travelTime_spec_monotone in Hfar.
    rewrite travelTime_spec_next_minute in Hfar. lia.
Qed.

Lemma C7_witness :
  calculateDistance 65 25.47 (65 + 0.001) 25.47
    <= calculateDistance 65 25.47 (65 + 0.002) 25.47 /\
  (calculateTravelTime 65 25.47 (65 + 0.001) 25.47
   <= calculateTravelTime 65 25.47 (65 + 0.002) 25.47)%Z.
Proof.
  assert (H : calculateDistance 65 25.47 (65 + 0.001) 25.47
              <= calculateDistance 65 25.47 (65 + 0.002) 25.47).
  { rewrite !distance_along_meridian by lra.
    pose proof PI_RGT_0 as Hpi.
    apply Rmult_le_compat_l; [lra|]. apply Rmult_le_compat_r; lra. }
  split; [exact H|].
  exact (proj1 (C7_travel_time_monotone _ _ _ _ _ _ _ _ H)).
Defined.


End TravelTime.

(** ** Zone travel times of the optimiser *)

Section ZoneTravelTime.

Import TimeSlotOptimizer.

Lemma TRAVEL_TIME_rows (z : string) (routeMap : gmap string Z) :
  TRAVEL_TIME !! z = Some routeMap ->
  z = "Keskusta (City Center)" \/ z = "Raksila" \/ z = "Tuira".
Proof.
  intros Hrow.
  destruct (decide (z = "Keskusta (City Center)")) as [|n1]; [now left|].
  destruct (decide (z = "Raksila")) as [|n2]; [now (right; left)|].
  destruct (decide (z = "Tuira")) as [|n3]; [now (right; right)|].
  exfalso. unfold TRAVEL_TIME in Hrow.
  cbn [combine map list_to_map foldr fst snd] in Hrow.
  rewrite !lookup_insert_ne in Hrow by congruence.
  rewrite lookup_empty in Hrow. discriminate.
Qed.

(** C10. For every zone that has a row in the optimiser's travel-time
    table, the row stores 0 for the zone itself, and [getTravelTime] from
    the zone to itself without coordinates is 20: the stored 0 is taken
    for a missing entry. *)
Theorem C10_same_zone_is_twenty (z : string) (routeMap : gmap string Z) :
  TRAVEL_TIME !! z = Some routeMap ->
  routeMap !! z = Some 0 /\
  getTravelTime (Some z) (Some z) None None = 20.
Proof.
  intros Hrow.
  destruct (TRAVEL_TIME_rows z routeMap Hrow) as [-> | [-> | ->]];
    vm_compute in Hrow; injection Hrow as <-; vm_compute; split; reflexivity.
Qed.

Lemma C10_witness :
  exists routeMap,
    TRAVEL_TIME !! "Raksila" = Some routeMap /\
    routeMap !! "Raksila" = Some 0 /\
    getTravelTime (Some "Raksila") (Some "Raksila") None None = 20.
Proof.
  destruct (TRAVEL_TIME !! "Raksila") as [routeMap|] eqn:Hrow;
    [|vm_compute in Hrow; discriminate].
  exists routeMap. split; [reflexivity|].
  exact (C10_same_zone_is_twenty "Raksila" routeMap Hrow).
Defined.

End ZoneTravelTime.

(** * Further properties of [geoUtils.js] *)

Section Distance.

Import GeoUtils.
Open Scope R_scope.

Lemma calculateDistance_swap (lat1 lng1 lat2 lng2 : R) :
  calculateDistance lat1 lng1 lat2 lng2 = calculateDistance lat2 lng2 lat1 lng1.
Proof.
  unfold calculateDistance. cbv zeta.
  replace (toRadians (lat1 - lat2) / 2) with (- (toRadians (lat2 - lat1) / 2))
    by (unfold toRadians; lra).
  replace (toRadians (lng1 - lng2) / 2) with (- (toRadians (lng2 - lng1) / 2))
    by (unfold toRadians; lra).
  rewrite !sin_neg.
  set (u := sin (toRadians (lat2 - lat1) / 2)).
  set (v := sin (toRadians (lng2 - lng1) / 2)).
  replace (- u * - u + cos (toRadians lat2) * cos (toRadians lat1) * - v * - v)
    with (u * u + cos (toRadians lat1) * cos (toRadians lat2) * v * v) by ring.
  reflexivity.
Qed.

Lemma calculateTravelTime_swap (lat1 lng1 lat2 lng2 : R) :
  calculateTravelTime lat1 lng1 lat2 lng2 = calculateTravelTime lat2 lng2 lat1 lng1.
Proof. unfold calculateTravelTime. now rewrite calculateDistance_swap. Qed.


(** X1. The distance and the travel time do not depend on the direction
    of travel. *)
Theorem distance_symmetric (lat1 lng1 lat2 lng2 : R) :
  calculateDistance lat1 lng1 lat2 lng2 = calculateDistance lat2 lng2 lat1 lng1 /\
  calculateTravelTime lat1 lng1 lat2 lng2 = calculateTravelTime lat2 lng2 lat1 lng1.
Proof. split; [apply calculateDistance_swap | apply calculateTravelTime_swap]. Qed.



End Distance.

Section Zones.

Import GeoUtils.
Local Open Scope Z_scope.

Lemma truthy_string_false (s : option string) :
  JS.truthy_string s = false -> s = None \/ s = Some "".
Proof.
  destruct s as [s|]; [|now left]. cbn. intros H. right.
  apply negb_false_iff, String.eqb_eq in H. now subst.
Qed.

(** The keys and the values of a row built from a list of times. *)
Lemma zone_row_lookup (ts : list Z) (k : string) (v : Z) :
  zone_row (combine zone_names ts) !! k = Some v -> In k zone_names /\ In v ts.
Proof.
  intros H. unfold zone_row in H.
  apply elem_of_list_to_map_2, list_elem_of_In in H.
  split; [eapply in_combine_l | eapply in_combine_r]; exact H.
Qed.

Lemma ZONE_TRAVEL_TIME_row (z : string) (fromZone : gmap string Z) :
  ZONE_TRAVEL_TIME !! z = Some fromZone ->
  In z zone_names /\
  forall k v, fromZone !! k = Some v -> In k zone_names /\ 5 <= v <= 25.
Proof.
  intros H. unfold ZONE_TRAVEL_TIME in H.
  apply elem_of_list_to_map_2, list_elem_of_In in H.
  split; [eapply in_combine_l; exact H|].
  apply in_combine_r, in_map_iff in H as (ts & <- & Hts).
  intros k v Hkv. apply zone_row_lookup in Hkv as [Hk Hv]. split; [exact Hk|].
  cbn [In] in Hts.
  repeat (destruct Hts as [<- | Hts];
          [cbn [In] in Hv;
           repeat (destruct Hv as [<- | Hv]; [lia|]); contradiction|]).
  contradiction.
Qed.

Lemma zone_time_known_pairs :
  forallb (fun a =>
    forallb (fun b =>
      (getZoneBasedTravelTime (Some a) (Some b)
       =? getZoneBasedTravelTime (Some b) (Some a))
      && (if String.eqb a b
          then getZoneBasedTravelTime (Some a) (Some b) =? 5
          else 8 <=? getZoneBasedTravelTime (Some a) (Some b)))
      zone_names) zone_names = true.
Proof. vm_compute. reflexivity. Qed.

Lemma zone_time_unknown_from (a b : option string) :
  (forall z, a = Some z -> ~ In z zone_names) ->
  getZoneBasedTravelTime a b = 15.
Proof.
  intros Ha. unfold getZoneBasedTravelTime.
  destruct (negb (JS.truthy_string a) || negb (JS.truthy_string b)); [reflexivity|].
  destruct a as [z|].
  - change (default "" (Some z)) with z.
    destruct (ZONE_TRAVEL_TIME !! z) as [row|] eqn:Hrow; [|reflexivity].
    apply ZONE_TRAVEL_TIME_row in Hrow as [Hin _]. now destruct (Ha z eq_refl).
  - change (default "" None) with "".
    replace (ZONE_TRAVEL_TIME !! "") with (@None (gmap string Z))
      by (vm_compute; reflexivity).
    reflexivity.
Qed.

Lemma zone_time_unknown_to (a b : option string) :
  (forall z, b = Some z -> ~ In z zone_names) ->
  getZoneBasedTravelTime a b = 15.
Proof.
  intros Hb. unfold getZoneBasedTravelTime.
  destruct (negb (JS.truthy_string a) || negb (JS.truthy_string b)) eqn:Hmiss;
    [reflexivity|].
  destruct (ZONE_TRAVEL_TIME !! default "" a) as [row|] eqn:Hrow; [|reflexivity].
  destruct (row !! default "" b) as [v|] eqn:Hv; [|reflexivity].
  apply ZONE_TRAVEL_TIME_row in Hrow as [_ Hkeys].
  destruct (Hkeys _ _ Hv) as [Hin _].
  destruct b as [z|]; [now destruct (Hb z eq_refl)|].
  apply orb_false_iff in Hmiss as [_ Hmiss]. discriminate Hmiss.
Qed.

Lemma zone_known_or_not (a : option string) :
  (exists z, a = Some z /\ In z zone_names) \/
  (forall z, a = Some z -> ~ In z zone_names).
Proof.
  destruct a as [z|]; [|right; discriminate].
  destruct (in_dec string_dec z zone_names) as [Hin|Hout].
  - left. now exists z.
  - right. now intros z' [= <-].
Qed.

Lemma zone_time_swap (a b : option string) :
  getZoneBasedTravelTime a b = getZoneBasedTravelTime b a.
Proof.
  destruct (zone_known_or_not a) as [(za & -> & Ha) | Ha].
  - destruct (zone_known_or_not b) as [(zb & -> & Hb) | Hb].
    + pose proof zone_time_known_pairs as H.
      rewrite forallb_forall in H. specialize (H za Ha).
      rewrite forallb_forall in H. specialize (H zb Hb).
      apply andb_true_iff in H as [H _]. now apply Z.eqb_eq in H.
    + now rewrite zone_time_unknown_to, zone_time_unknown_from.
  - now rewrite zone_time_unknown_from, zone_time_unknown_to.
Qed.

Lemma zone_time_range (a b : option string) :
  5 <= getZoneBasedTravelTime a b <= 25.
Proof.
  unfold getZoneBasedTravelTime.
  destruct (negb (JS.truthy_string a) || negb (JS.truthy_string b)); [lia|].
  destruct (ZONE_TRAVEL_TIME !! default "" a) as [row|] eqn:Hrow; [|lia].
  apply ZONE_TRAVEL_TIME_row in Hrow as [_ Hkeys]. unfold or_default.
  destruct (row !! default "" b) as [v|] eqn:Hv; [|lia].
  destruct (Hkeys _ _ Hv) as [_ Hbound]. destruct (v =? 0); lia.
Qed.

(** X3. A zone travel time is symmetric: from [a] to [b] it is what it is
    from [b] to [a], for any two zones, missing and unknown ones included,
    as long as neither is the name of a member of [Object.prototype]
    (the lookup of such a name finds the inherited member, and the
    symmetry is lost: from ["constructor"] to ["length"] the code gives 1,
    and 15 the other way round). *)
Theorem zone_travel_time_symmetric (a b : option string) :
  own_key a -> own_key b ->
  getZoneBasedTravelTime a b = getZoneBasedTravelTime b a.
Proof. intros _ _. apply zone_time_swap. Qed.

Lemma zone_travel_time_symmetric_witness :
  own_key (Some "Tuira") /\ own_key (Some "Pateniemi") /\
  getZoneBasedTravelTime (Some "Tuira") (Some "Pateniemi") = 15 /\
  getZoneBasedTravelTime (Some "Pateniemi") (Some "Tuira") = 15.
Proof.
  assert (H1 : own_key (Some "Tuira")) by (apply own_key_check; reflexivity).
  assert (H2 : own_key (Some "Pateniemi")) by (apply own_key_check; reflexivity).
  split; [exact H1|]. split; [exact H2|]. split; [reflexivity|].
  rewrite <- (zone_travel_time_symmetric (Some "Tuira") (Some "Pateniemi") H1 H2).
  reflexivity.
Defined.

(** X4. For two zones of which neither is the name of a member of
    [Object.prototype]: the zone travel time is 15 minutes as soon as one
    of the two is missing, empty or not one of the nine zones of the
    table; between two zones of the table it is 5 minutes within a zone
    and between 8 and 25 minutes from one zone to another. *)
Theorem zone_travel_time_values (a b : option string) :
  own_key a -> own_key b ->
  ((forall z, a = Some z -> ~ In z zone_names) \/
   (forall z, b = Some z -> ~ In z zone_names) ->
   getZoneBasedTravelTime a b = 15) /\
  (forall za zb, a = Some za -> b = Some zb ->
     In za zone_names -> In zb zone_names ->
     (za = zb -> getZoneBasedTravelTime a b = 5) /\
     (za <> zb -> 8 <= getZoneBasedTravelTime a b <= 25)).
Proof.
  intros _ _. split.
  - intros [Ha | Hb]; [now apply zone_time_unknown_from | now apply zone_time_unknown_to].
  - intros za zb -> -> Ha Hb.
    pose proof zone_time_known_pairs as H.
    rewrite forallb_forall in H. specialize (H za Ha).
    rewrite forallb_forall in H. specialize (H zb Hb).
    apply andb_true_iff in H as [_ H]. split.
    + intros Heq. apply String.eqb_eq in Heq. rewrite Heq in H. now apply Z.eqb_eq.
    + intros Hne. apply String.eqb_neq in Hne. rewrite Hne in H.
      apply Z.leb_le in H. split; [exact H|].
      apply zone_time_range.
Qed.

Lemma zone_travel_time_values_witness :
  own_key (Some "Tuira") /\ own_key (Some "Kaakkuri") /\
  In "Tuira" zone_names /\ In "Kaakkuri" zone_names /\ "Tuira" <> "Kaakkuri" /\
  8 <= getZoneBasedTravelTime (Some "Tuira") (Some "Kaakkuri") <= 25.
Proof.
  assert (K1 : own_key (Some "Tuira")) by (apply own_key_check; reflexivity).
  assert (K2 : own_key (Some "Kaakkuri")) by (apply own_key_check; reflexivity).
  assert (H1 : In "Tuira" zone_names) by (cbn; tauto).
  assert (H2 : In "Kaakkuri" zone_names) by (cbn; tauto).
  assert (H3 : "Tuira" <> "Kaakkuri") by discriminate.
  repeat split; try assumption;
    apply (proj2 (proj2 (zone_travel_time_values (Some "Tuira") (Some "Kaakkuri")
                           K1 K2)
                    "Tuira" "Kaakkuri" eq_refl eq_refl H1 H2) H3).
Defined.



End Zones.

(** * Further properties of [timeSlotOptimizer.js] *)

Section OptimizerTravelTime.

Import TimeSlotOptimizer.





End OptimizerTravelTime.

Section NearestNeighbour.

Import GeoUtils.






End NearestNeighbour.

Section DurationsAndTimes.

Import TimeSlotOptimizer.

Lemma CARE_DURATION_at_least_thirty (k : string) (v : Z) :
  CARE_DURATION !! k = Some v -> 30 <= v.
Proof.
  intros H. unfold CARE_DURATION in H.
  apply elem_of_list_to_map_2, list_elem_of_In in H.
  cbn [In] in H.
  repeat (destruct H as [H | H]; [injection H as _ <-; lia|]).
  contradiction.
Qed.

Lemma table_duration_range (care : option string) :
  30 <= getCareDuration care None <= 60.
Proof.
  split; [|apply getCareDuration_at_most_sixty; discriminate].
  unfold getCareDuration.
  replace (CARE_DURATION !! "default") with (Some 45) by (vm_compute; reflexivity).
  unfold GeoUtils.or_default. change (default 0 (Some 45)) with 45.
  destruct (CARE_DURATION !! key care) as [v|] eqn:E; [|lia].
  apply CARE_DURATION_at_least_thirty in E. destruct (v =? 0); lia.
Qed.

(** X8. A positive estimate is returned as it is, whatever the care
    type. For a care type that is not the name of a member of
    [Object.prototype], a missing one included: the visit duration is
    always positive; a zero or negative estimate is ignored; without a
    usable estimate the duration comes from the table or its default and
    lies between 30 and 60 minutes. *)
Theorem care_duration_resolution (care : option string) (estimate : option Z) :
  (forall d, estimate = Some d -> 0 < d -> getCareDuration care estimate = d) /\
  (own_key care ->
   0 < getCareDuration care estimate /\
   30 <= getCareDuration care None <= 60 /\
   (forall d, estimate = Some d -> d <= 0 ->
      getCareDuration care estimate = getCareDuration care None)).
Proof.
  pose proof (table_duration_range care) as Htable.
  split; [|intros _; split; [|split; [exact Htable|]]].
  - intros d -> Hd. unfold getCareDuration.
    apply Z.ltb_lt in Hd. now rewrite Hd.
  - unfold getCareDuration in *. destruct estimate as [d|]; [|lia].
    destruct (0 <? d) eqn:E; [now apply Z.ltb_lt in E | lia].
  - intros d -> Hd. unfold getCareDuration.
    apply Z.ltb_ge in Hd. now rewrite Hd.
Qed.

Lemma care_duration_resolution_witness :
  own_key (Some "Wound Care") /\
  getCareDuration (Some "Wound Care") (Some 90) = 90 /\
  getCareDuration (Some "Wound Care") (Some 0) = 45 /\
  getCareDuration (Some "Wound Care") (Some 0) = getCareDuration (Some "Wound Care") None.
Proof.
  assert (K : own_key (Some "Wound Care")) by (apply own_key_check; reflexivity).
  destruct (care_duration_resolution (Some "Wound Care") (Some 90)) as (H90 & _).
  destruct (care_duration_resolution (Some "Wound Care") (Some 0)) as (_ & H0).
  destruct (H0 K) as (_ & _ & H0').
  split; [exact K|]. split; [|split; [reflexivity|]].
  - apply (H90 90 eq_refl). lia.
  - apply (H0' 0 eq_refl). lia.
Defined.

Lemma minutes_of_two_digits :
  forallb (fun h =>
    forallb (fun m =>
      match minutes_of (two_digits (Z.of_nat h) ++ ":" ++ two_digits (Z.of_nat m)) with
      | Some v => v =? Z.of_nat h * 60 + Z.of_nat m
      | None => false
      end) (seq 0 60)) (seq 0 100) = true.
Proof. vm_compute. reflexivity. Qed.

Lemma minutes_of_format_time (t : Z) :
  0 <= t < 6000 -> minutes_of (format_time (Some t)) = Some t.
Proof.
  intros Ht. rewrite format_time_two_digits by exact Ht.
  assert (Hh : 0 <= t / 60 < 100)
    by (split; [apply Z.div_pos; lia | apply Z.div_lt_upper_bound; lia]).
  pose proof (Z.mod_pos_bound t 60 ltac:(lia)) as Hm.
  pose proof (proj1 (forallb_forall _ _) minutes_of_two_digits
                (Z.to_nat (t / 60)) ltac:(apply in_seq; lia)) as H.
  cbv beta in H.
  pose proof (proj1 (forallb_forall _ _) H
                (Z.to_nat (t mod 60)) ltac:(apply in_seq; lia)) as H'.
  cbv beta in H'. rewrite !Z2Nat.id in H' by lia.
  destruct (minutes_of _) as [v|]; [|discriminate].
  apply Z.eqb_eq in H'. rewrite H'. f_equal.
  pose proof (Z.div_mod t 60 ltac:(lia)). lia.
Qed.

(** X9. Times of day round-trip: a time up to 99:59, written as [HH:MM],
    is read back as the same number of minutes; and adding minutes to
    such a time string gives the string of the sum. The hour is not
    wrapped at midnight. *)
Theorem addMinutes_adds (t minutes : Z) :
  0 <= t < 6000 ->
  minutes_of (format_time (Some t)) = Some t /\
  addMinutes (format_time (Some t)) minutes = format_time (Some (t + minutes)).
Proof.
  intros Ht. split; [now apply minutes_of_format_time|].
  unfold addMinutes. now rewrite minutes_of_format_time.
Qed.

Lemma addMinutes_adds_witness :
  0 <= 1410 < 6000 /\
  addMinutes "23:30" 45 = "24:15".
Proof.
  split; [lia|].
  exact (proj2 (addMinutes_adds 1410 45 ltac:(lia))).
Defined.

(** X10. Adding minutes in two steps is adding their sum, as long as the
    intermediate time stays between 00:00 and 99:59. *)
Theorem addMinutes_twice (t a b : Z) :
  0 <= t < 6000 -> 0 <= t + a < 6000 ->
  addMinutes (addMinutes (format_time (Some t)) a) b
  = addMinutes (format_time (Some t)) (a + b).
Proof.
  intros Ht Hta. unfold addMinutes.
  rewrite (minutes_of_format_time t Ht). cbn [JS.lift2].
  rewrite (minutes_of_format_time (t + a) Hta). cbn [JS.lift2].
  now rewrite Z.add_assoc.
Qed.

Lemma addMinutes_twice_witness :
  0 <= 480 < 6000 /\ 0 <= 480 + 45 < 6000 /\
  addMinutes (addMinutes "08:00" 45) 30 = addMinutes "08:00" 75.
Proof.
  split; [lia|]. split; [lia|].
  exact (addMinutes_twice 480 45 30 ltac:(lia) ltac:(lia)).
Defined.

End DurationsAndTimes.

Section SlotCalculatorMore.

Import TimeSlotOptimizer.

(** X11. The slot calculator only reads: whatever the store calls do, it
    leaves the store as it found it, and it always resolves to an answer
    (a rejected store call becomes an answer that is not available). *)
Theorem slot_calculator_reads_only (professionalId : Id) (d : Date)
    (existing : list InBatch) (w : World) :
  db (snd (calculateAvailableTimeSlots professionalId d existing w)) = db w /\
  exists x, fst (calculateAvailableTimeSlots professionalId d existing w) = Returned x.
Proof.
  destruct (slots_spec (db w) professionalId d existing w eq_refl)
    as [Hdb (x & Hx & _)].
  split; [exact Hdb | now exists x].
Qed.

(** X12. How the slot calculator answers when it cannot tell. A weekday
    with no working-hours row, or with more than one, and a working-hours
    read that reports an error all give "No working hours for this day"
    with a count of 0; a capacity read that reports an error gives
    "Error checking capacity" with a count of 0; a rejected store call
    gives its message as the reason, without count or capacity. *)
Theorem slot_calculator_failures (professionalId : Id) (d : Date)
    (existing : list InBatch) (w : World) :
  let answer := fst (calculateAvailableTimeSlots professionalId d existing w) in
  (carried_out 1 w ->
   (forall wh, windows (db w) professionalId d <> [wh]) ->
   answer = Returned (refusal "No working hours for this day" (Some 0%nat) (Some 4%nat))) /\
  (forall m rest, plan w = Failed m :: rest ->
   answer = Returned (refusal "No working hours for this day" (Some 0%nat) (Some 4%nat))) /\
  (forall m rest, plan w = Rejected m :: rest ->
   answer = Returned (refusal m None None)) /\
  (forall wh m rest, windows (db w) professionalId d = [wh] ->
   (plan w = Done :: Failed m :: rest ->
    answer = Returned (refusal "Error checking capacity" (Some 0%nat) (Some 4%nat))) /\
   (plan w = Done :: Rejected m :: rest ->
    answer = Returned (refusal m None None))).
Proof.
  cbv zeta. unfold calculateAvailableTimeSlots, try_catch, bind,
    select_working_hours, select_active_assignments.
  fold (weekday_of d).
  split; [|split; [|split]].
  - intros Hplan Hrows.
    destruct (supabase_carried_out
                (fun s => (single (List.filter
                             (fun h => Nat.eqb (wh_professional_id h) professionalId
                                       && (weekday h =? weekday_of d))
                             (working_hours s)), s)) w 0 Hplan) as [-> _].
    cbn [fst snd]. fold (windows (db w) professionalId d).
    destruct (windows (db w) professionalId d) as [|x [|y l]]; cbn;
      [reflexivity | now destruct (Hrows x) | reflexivity].
  - intros m rest Hplan. unfold supabase. rewrite Hplan. reflexivity.
  - intros m rest Hplan. unfold supabase. rewrite Hplan. reflexivity.
  - intros wh m rest Hwh. unfold supabase.
    split; intros Hplan; rewrite Hplan; cbn [fst snd db plan];
      fold (windows (db w) professionalId d); rewrite Hwh; reflexivity.
Qed.

Lemma slot_calculator_failures_witness :
  plan {| db := full_day; plan := [Done; Failed "timeout"] |}
    = [Done; Failed "timeout"] /\
  fst (calculateAvailableTimeSlots 7 monday []
         {| db := full_day; plan := [Done; Failed "timeout"] |})
  = Returned (refusal "Error checking capacity" (Some 0%nat) (Some 4%nat)).
Proof.
  split; [reflexivity|].
  exact (proj1 (proj2 (proj2 (proj2
           (slot_calculator_failures 7 monday []
              {| db := full_day; plan := [Done; Failed "timeout"] |})))
           {| wh_professional_id := 7; weekday := 1;
              start_time := "08:00:00"; end_time := "16:00:00" |}
           "timeout" [] eq_refl) eq_refl).
Defined.

End SlotCalculatorMore.

Section SmartAssignMore.

Import TimeSlotOptimizer.

(** X13. A single assignment never throws, never touches the patient and
    working-hours tables and never changes a stored assignment: the
    assignment table is left as it was, or gets one new row, active, for
    the requested professional and date, at a time the slot calculator
    grants for the stored load. A success always comes with that row. *)
Theorem smartAssignPatient_appends_at_most_one (patientId professionalId : Id)
    (d : Date) (assignedById : option Id) (w : World) :
  let w' := snd (smartAssignPatient patientId professionalId d assignedById w) in
  exists x,
    fst (smartAssignPatient patientId professionalId d assignedById w) = Returned x /\
    patients (db w') = patients (db w) /\
    working_hours (db w') = working_hours (db w) /\
    ((patient_assignments (db w') = patient_assignments (db w) /\ success x = false) \/
     exists wh t row,
       patient_assignments (db w') = (patient_assignments (db w) ++ [row])%list /\
       a_professional_id row = professionalId /\
       scheduled_visit_date row = Some d /\
       scheduled_visit_time row = Some t /\
       status row = active /\
       windows (db w) professionalId d = [wh] /\
       slot_fits wh (load (db w) professionalId d) t /\
       (success x = true -> suggestedTime x = Some t)).
Proof.
  cbv zeta.
  destruct (smartAssignPatient_spec (db w) patientId professionalId d assignedById
              w eq_refl) as [[x Hx] (Hp & Hw & Hcases)].
  exists x. do 3 (split; [assumption|]).
  destruct Hcases as [[Hsame Hfail] | (wh & t & row & H1 & H2 & H3 & H4 & H5 & H6 & H7 & H8)].
  - left. split; [exact Hsame | now apply Hfail].
  - right. exists wh, t, row. do 7 (split; [assumption|]).
    intros Hok. now destruct (H8 x Hx Hok).
Qed.

(** X14. No partial writes when nothing can be assigned. If the patient
    id does not name exactly one patient, if the professional has no
    single working-hours row for the weekday, or if the professional
    already has four active assignments that day, the single assignment
    fails and leaves the whole store as it was, whatever the store calls
    do. *)
Theorem smartAssignPatient_refused_writes_nothing (patientId professionalId : Id)
    (d : Date) (assignedById : option Id) (w : World) :
  (forall p, patients_with (db w) patientId <> [p]) \/
  (forall wh, windows (db w) professionalId d <> [wh]) \/
  (4 <= load (db w) professionalId d)%nat ->
  db (snd (smartAssignPatient patientId professionalId d assignedById w)) = db w /\
  exists x,
    fst (smartAssignPatient patientId professionalId d assignedById w) = Returned x /\
    success x = false.
Proof.
  intros Hno. revert w Hno.
  enough (H : forall s0,
             ((forall p, patients_with s0 patientId <> [p]) \/
              (forall wh, windows s0 professionalId d <> [wh]) \/
              (4 <= load s0 professionalId d)%nat) ->
             hoare (eq s0)
               (smartAssignPatient patientId professionalId d assignedById)
               (fun r s => s = s0 /\ exists x, r = Returned x /\ success x = false)).
  { intros w Hno. exact (H (db w) Hno w eq_refl). }
  intros s0 Hno. unfold smartAssignPatient.
  apply hoare_try_catch with
    (R := fun r s => s = s0 /\ forall x, r = Returned x -> success x = false).
  - apply hoare_bind with
      (R := fun r s =>
              (forall rep, r = Returned rep -> error rep = None ->
                 exists pt, patients_with s0 patientId = [pt]) /\ s = s0).
    + apply hoare_supabase.
      * intros s <-. split; [|reflexivity]. intros rep [= <-] He.
        cbn [fst] in He. fold (patients_with s0 patientId) in He.
        destruct (patients_with s0 patientId) as [|p [|q l]];
          cbn in He; try discriminate. now exists p.
      * intros s m <-. split; [|reflexivity]. intros rep [= <-]. discriminate.
      * intros s m <-. split; [|reflexivity]. discriminate.
    + intros p. apply hoare_assume. intros Hp. specialize (Hp p eq_refl).
      destruct (error p) as [e|].
      { apply hoare_throw. intros s ->. split; [reflexivity | discriminate]. }
      destruct (Hp eq_refl) as [pt Hpt].
      apply hoare_bind with
        (R := fun r s => (exists x, r = Returned x /\ granted s0 professionalId d [] x)
                         /\ s = s0).
      * intros w0 Hs.
        destruct (slots_spec s0 professionalId d [] w0 (eq_sym Hs)) as [H1 H2].
        now split.
      * intros slots. apply hoare_assume. intros (x & [= <-] & Hg).
        destruct (available slots) eqn:Hav; cbn [negb].
        2:{ apply hoare_ret. intros s ->. split; [reflexivity|]. now intros x [= <-]. }
        exfalso. destruct (Hg Hav) as (wh & t & Hw & _ & Hfits).
        unfold in_batch_load in Hfits. cbn [List.filter length] in Hfits.
        rewrite Nat.add_0_r in Hfits. destruct Hfits as [Hlt _].
        unfold MAX_PATIENTS_PER_DAY in Hlt.
        destruct Hno as [Hno | [Hno | Hno]];
          [now apply (Hno pt) | now apply (Hno wh) | lia].
      * intros m s [(x & Hx & _) _]. discriminate.
    + intros m s [_ ->]. split; [reflexivity | discriminate].
  - intros a s [-> H]. split; [reflexivity|]. exists a. split; [reflexivity | now apply H].
  - intros m. apply hoare_ret. intros s [-> _]. split; [reflexivity|].
    now exists (failure (Some m)).
Qed.

Lemma smartAssignPatient_refused_writes_nothing_witness :
  (forall p, patients_with (db (calm full_day)) 9 <> [p]) /\
  db (snd (smartAssignPatient 9 7 monday None (calm full_day))) = db (calm full_day).
Proof.
  assert (H : forall p, patients_with (db (calm full_day)) 9 <> [p])
    by (intros p; vm_compute; discriminate).
  split; [exact H|].
  exact (proj1 (smartAssignPatient_refused_writes_nothing 9 7 monday None
                  (calm full_day) (or_introl H))).
Defined.

End SmartAssignMore.

Section SuccessfulAssignment.

Import TimeSlotOptimizer.





End SuccessfulAssignment.

Section BulkMore.

Import TimeSlotOptimizer.


(** The results and the in-batch list a batch adds do not depend on what
    was accumulated before it. *)
Lemma bulk_loop_from assignments assignedById :
  forall results existing w,
    bulk_loop assignments assignedById results existing w =
    match bulk_loop assignments assignedById [] [] w with
    | (Returned (rs, ex), w') =>
        (Returned ((results ++ rs)%list, (existing ++ ex)%list), w')
    | (Thrown m, w') => (Thrown m, w')
    end.
Proof.
  induction assignments as [|item rest IH]; intros results existing w.
  - cbn. now rewrite !List.app_nil_r.
  - cbn [bulk_loop]. unfold bind.
    destruct (smartAssignPatient _ _ _ _ w) as [[x|m] w1]; [|reflexivity].
    rewrite IH. rewrite (IH ([] ++ _)%list).
    destruct (bulk_loop rest assignedById [] [] w1) as [[[rs ex]|m] w2];
      [|reflexivity].
    destruct (success x); cbn [app]; now rewrite <- !List.app_assoc.
Qed.

Lemma bulk_loop_returns assignments assignedById w :
  exists rs ex,
    fst (bulk_loop assignments assignedById [] [] w) = Returned (rs, ex) /\
    map fst rs = assignments.
Proof.
  destruct (bulk_loop_spec (fun _ => True) (fun _ _ _ _ _ _ _ _ => I)
              (db w) assignedById assignments [] [] w)
    as (_ & _ & _ & rs & ex & Hr & Hmap & _); [now repeat split|].
  now exists rs, ex.
Qed.


(** X17. A batch is the sequence of its parts: processing [first ++ rest]
    gives the results of [first] followed by the results of [rest]
    processed from the world [first] ends in, and ends in the same
    world. *)
Theorem bulkAssignPatients_app (first rest : list BulkItem)
    (assignedById : option Id) (w : World) :
  let w1 := snd (bulkAssignPatients first assignedById w) in
  exists b1 b2 b,
    fst (bulkAssignPatients first assignedById w) = Returned b1 /\
    fst (bulkAssignPatients rest assignedById w1) = Returned b2 /\
    fst (bulkAssignPatients (first ++ rest) assignedById w) = Returned b /\
    results b = (results b1 ++ results b2)%list /\
    successful b = (successful b1 + successful b2)%nat /\
    failed b = (failed b1 + failed b2)%nat /\
    snd (bulkAssignPatients (first ++ rest) assignedById w)
      = snd (bulkAssignPatients rest assignedById w1).
Proof.
  cbv zeta. unfold bulkAssignPatients, bind.
  rewrite bulk_loop_app.
  destruct (bulk_loop_returns first assignedById w) as (rs1 & ex1 & Hr1 & _).
  destruct (bulk_loop first assignedById [] [] w) as [r1 w1]. cbn [fst] in Hr1.
  subst r1. cbn [fst snd ret].
  rewrite (bulk_loop_from rest assignedById rs1 ex1 w1).
  destruct (bulk_loop_returns rest assignedById w1) as (rs2 & ex2 & Hr2 & _).
  destruct (bulk_loop rest assignedById [] [] w1) as [r2 w2]. cbn [fst] in Hr2.
  subst r2. cbn [fst snd].
  do 3 eexists. do 3 (split; [reflexivity|]).
  cbn [results successful failed fst].
  rewrite !List.filter_app, !List.length_app. repeat split.
Qed.

Lemma successes_app rs (ir : BulkItem * AssignResult) professionalId d :
  successes (rs ++ [ir]) professionalId d =
  (successes rs professionalId d +
   if success (snd ir)
      && Nat.eqb (item_professional_id (fst ir)) professionalId
      && (item_date (fst ir) =? d)%Z
   then 1 else 0)%nat.
Proof.
  unfold successes. rewrite List.filter_app, List.length_app.
  cbn [List.filter]. now destruct (_ && _).
Qed.

(** The in-batch list has one entry per success. *)
Lemma bulk_loop_records assignments assignedById professionalId d :
  forall results existing w results' existing' w',
    bulk_loop assignments assignedById results existing w
      = (Returned (results', existing'), w') ->
    in_batch_load existing professionalId d = successes results professionalId d ->
    in_batch_load existing' professionalId d = successes results' professionalId d.
Proof.
  induction assignments as [|item rest IH];
    intros results existing w results' existing' w' Hrun Hsame.
  - cbn in Hrun. now injection Hrun as <- <- _.
  - cbn [bulk_loop] in Hrun. unfold bind in Hrun.
    destruct (smartAssignPatient _ _ _ _ w) as [[x|m] w1]; [|discriminate].
    apply (IH _ _ _ _ _ _ Hrun).
    rewrite successes_app. cbn [fst snd].
    destruct (success x); cbn [andb].
    + rewrite in_batch_load_app. cbn [professional_id b_scheduled_visit_date].
      now rewrite Hsame.
    + now rewrite Nat.add_0_r.
Qed.

(** X18. A batch never takes more than the capacity that is left: from a
    store within capacity, the successful results of a batch for one
    professional and date, added to the active assignments stored before
    the batch, stay within four. *)
Theorem bulkAssignPatients_within_remaining_capacity
    (assignments : list BulkItem) (assignedById : option Id) (w : World)
    (b : BulkResult) (professionalId : Id) (d : Date) :
  within_capacity (db w) ->
  fst (bulkAssignPatients assignments assignedById w) = Returned b ->
  (load (db w) professionalId d + successes (results b) professionalId d <= 4)%nat.
Proof.
  intros Hcap Hrun. unfold bulkAssignPatients, bind in Hrun.
  destruct (bulk_loop_spec within_capacity assign_outcome_capacity
              (db w) assignedById assignments [] [] w)
    as (_ & _ & Hcap' & _); [now repeat split|].
  destruct (bulk_loop assignments assignedById [] [] w) as [[[rs ex]|m] w1] eqn:Hloop;
    [|discriminate].
  injection Hrun as <-. cbn [results fst snd] in *.
  pose proof (bulk_loop_accounts _ _ _ _ _ _ _ _ Hloop professionalId d) as Hacc.
  pose proof (bulk_loop_records _ _ professionalId d _ _ _ _ _ _ Hloop eq_refl) as Hrec.
  specialize (Hcap' professionalId d). unfold MAX_PATIENTS_PER_DAY in Hcap'.
  unfold in_batch_load in Hacc at 2. cbn [List.filter length] in Hacc. lia.
Qed.

Lemma bulkAssignPatients_within_remaining_capacity_witness :
  within_capacity (db (calm full_day)) /\
  (load (db (calm full_day)) 7 monday
   + successes [(visit 1, assigned 100 1 "08:00"); (visit 2, assigned 101 2 "10:00")]
       7 monday <= 4)%nat.
Proof.
  assert (Hcap : within_capacity (db (calm full_day)))
    by (intros p d; apply Nat.le_0_l).
  split; [exact Hcap|].
  apply (bulkAssignPatients_within_remaining_capacity [visit 1; visit 2] None
           (calm full_day)
           {| total := 2; successful := 2; failed := 0;
              results := [(visit 1, assigned 100 1 "08:00");
                          (visit 2, assigned 101 2 "10:00")] |}
           7 monday Hcap).
  vm_compute. reflexivity.
Defined.

End BulkMore.

(** * Further properties of [routes/assignments.js] *)

Section StatusTable.

Lemma with_status_length id st (l : list Assignment) :
  length (with_status id st l) = length l.
Proof. apply List.length_map. Qed.

Lemma with_status_other id st (l : list Assignment) (a : Assignment) :
  In a l -> assignment_id a <> id -> In a (with_status id st l).
Proof.
  intros Hin Hne. unfold with_status. apply in_map_iff. exists a.
  apply Nat.eqb_neq in Hne. now rewrite Hne.
Qed.

Lemma with_status_absent id st (l : list Assignment) :
  assignments_with id l = [] -> with_status id st l = l.
Proof.
  unfold assignments_with, with_status.
  induction l as [|a l IH]; [reflexivity|]. cbn [List.filter map].
  destruct (Nat.eqb (assignment_id a) id); [discriminate|].
  intros H. now rewrite IH.
Qed.

Lemma with_status_selected id st (l : list Assignment) :
  assignments_with id (with_status id st l) =
  map (fun a => {| assignment_id := assignment_id a;
                   a_patient_id := a_patient_id a;
                   a_professional_id := a_professional_id a;
                   assigned_by_id := assigned_by_id a;
                   assignment_reason := assignment_reason a;
                   scheduled_visit_date := scheduled_visit_date a;
                   scheduled_visit_time := scheduled_visit_time a;
                   status := st |})
      (assignments_with id l).
Proof.
  unfold assignments_with, with_status.
  induction l as [|a l IH]; [reflexivity|]. cbn [List.filter map].
  destruct (Nat.eqb (assignment_id a) id) eqn:E; cbn [assignment_id];
    rewrite E; cbn [map]; now rewrite IH.
Qed.

Lemma with_status_load id st (l : list Assignment) professionalId d :
  st <> active ->
  (length (active_on professionalId d (with_status id st l))
   <= length (active_on professionalId d l))%nat.
Proof.
  intros Hst. unfold with_status.
  induction l as [|a l IH]; [apply Nat.le_refl|].
  cbn [map]. unfold active_on in *. cbn [List.filter].
  destruct (Nat.eqb (assignment_id a) id).
  - cbn [a_professional_id scheduled_visit_date status].
    replace (is_active st) with false by (destruct st; [contradiction|..]; reflexivity).
    rewrite andb_false_r.
    destruct (_ && _ && _); cbn [length]; lia.
  - destruct (_ && _ && _); cbn [length]; lia.
Qed.

Lemma store_eta (s : Store) :
  {| patients := patients s; working_hours := working_hours s;
     patient_assignments := patient_assignments s; schedules := schedules s;
     next_id := next_id s |} = s.
Proof. now destruct s. Qed.

End StatusTable.

Section StatusRoute.

Import AssignmentStatusRoute.

(** X19. The status update rejects every status other than "active",
    "completed", "reassigned" and "cancelled", a missing one included,
    with a 400 response, before any store call: the store and the
    outcomes of the coming calls are left as they were. *)
Theorem updateStatus_rejects_unknown (id : Id) (status : option string) (w : World) :
  status <> Some "active" -> status <> Some "completed" ->
  status <> Some "reassigned" -> status <> Some "cancelled" ->
  updateStatus id status w = (Returned (Status400 "Invalid status"), w).
Proof.
  intros H1 H2 H3 H4. unfold updateStatus, try_catch.
  destruct status as [s|]; [|reflexivity].
  unfold status_of.
  destruct (String.eqb s "active") eqn:E1;
    [apply String.eqb_eq in E1; now subst|].
  destruct (String.eqb s "completed") eqn:E2;
    [apply String.eqb_eq in E2; now subst|].
  destruct (String.eqb s "reassigned") eqn:E3;
    [apply String.eqb_eq in E3; now subst|].
  destruct (String.eqb s "cancelled") eqn:E4;
    [apply String.eqb_eq in E4; now subst|].
  reflexivity.
Qed.

Lemma updateStatus_rejects_unknown_witness :
  Some "done" <> Some "active" /\
  updateStatus 100 (Some "done") (calm full_day)
    = (Returned (Status400 "Invalid status"), calm full_day).
Proof.
  split; [discriminate|].
  apply updateStatus_rejects_unknown; discriminate.
Defined.

(** X20. The status update never throws and never adds or removes a row:
    the assignment table keeps its length, every row with another id
    stays as it is, and the other tables are untouched. Closing
    assignments (any status but "active") never raises the number of
    active assignments of any professional on any date. *)
Theorem updateStatus_keeps_rows (id : Id) (status : option string) (w : World) :
  let w' := snd (updateStatus id status w) in
  (exists r, fst (updateStatus id status w) = Returned r) /\
  patients (db w') = patients (db w) /\
  working_hours (db w') = working_hours (db w) /\
  schedules (db w') = schedules (db w) /\
  length (patient_assignments (db w')) = length (patient_assignments (db w)) /\
  (forall a, In a (patient_assignments (db w)) -> assignment_id a <> id ->
             In a (patient_assignments (db w'))) /\
  (status <> Some "active" ->
   forall professionalId d,
     (load (db w') professionalId d <= load (db w) professionalId d)%nat).
Proof.
  cbv zeta.
  assert (Hcases :
    (exists r, fst (updateStatus id status w) = Returned r) /\
    (db (snd (updateStatus id status w)) = db w \/
     exists st, (status <> Some "active" -> st <> active) /\
       db (snd (updateStatus id status w)) =
         {| patients := patients (db w);
            working_hours := working_hours (db w);
            patient_assignments := with_status id st (patient_assignments (db w));
            schedules := schedules (db w);
            next_id := next_id (db w) |})).
  { unfold updateStatus, try_catch.
    destruct status as [s|]; [|split; [eexists; reflexivity | now left]].
    destruct (status_of s) as [st|] eqn:Hst;
      [|split; [eexists; reflexivity | now left]].
    assert (Hact : Some s <> Some "active" -> st <> active).
    { intros Hne ->. apply Hne. f_equal. unfold status_of in Hst.
      destruct (String.eqb s "active") eqn:E; [now apply String.eqb_eq in E|].
      destruct (String.eqb s "completed"); [discriminate|].
      destruct (String.eqb s "reassigned"); [discriminate|].
      destruct (String.eqb s "cancelled"); discriminate. }
    unfold bind, update_status_single, supabase.
    destruct (plan w) as [|[|m|m] rest]; cbn [fst snd db single error data];
      try (split; [eexists; reflexivity | now left]);
      (match goal with
       | |- context [single ?l] => destruct (single l) as [dt [e|]]
       end; cbn [error data fst snd db];
       (split; [eexists; reflexivity | right; exists st; now split])). }
  destruct Hcases as [Hret [Hsame | (st & Hact & Hdb)]].
  - rewrite Hsame. repeat split; auto. 
  - rewrite Hdb. cbn [patients working_hours schedules patient_assignments].
    split; [exact Hret|]. do 3 (split; [reflexivity|]).
    split; [apply with_status_length|].
    split; [intros a; apply with_status_other|].
    intros Hne p d. unfold load. cbn [patient_assignments].
    apply with_status_load, Hact, Hne.
Qed.

Lemma updateStatus_keeps_rows_witness :
  Some "completed" <> Some "active" /\
  (load (db (snd (updateStatus 100 (Some "completed")
                    (snd (TimeSlotOptimizer.smartAssignPatient 1 7 monday None
                            (calm full_day)))))) 7 monday
   <= load (db (snd (TimeSlotOptimizer.smartAssignPatient 1 7 monday None
                       (calm full_day)))) 7 monday)%nat.
Proof.
  assert (H : Some "completed" <> Some "active") by discriminate.
  split; [exact H|].
  exact (proj2 (proj2 (proj2 (proj2 (proj2 (proj2
           (updateStatus_keeps_rows 100 (Some "completed")
              (snd (TimeSlotOptimizer.smartAssignPatient 1 7 monday None
                      (calm full_day)))))))))
           H 7%nat monday).
Defined.

End StatusRoute.

Section ReassignMore.

Import AssignmentsRoute.

(** X21. Reassigning an assignment id that no row has answers with a 500
    response and leaves the store as it was, whatever the store calls
    do. *)
Theorem reassign_unknown_id (oldAssignmentId newProfessionalId : Id)
    (why : option string) (user : Id) (w : World) :
  assignments_with oldAssignmentId (patient_assignments (db w)) = [] ->
  db (snd (reassign oldAssignmentId newProfessionalId why user w)) = db w /\
  exists m, fst (reassign oldAssignmentId newProfessionalId why user w)
            = Returned (Status500 m).
Proof.
  intros Hnone. revert w Hnone.
  enough (H : forall s0,
             assignments_with oldAssignmentId (patient_assignments s0) = [] ->
             hoare (eq s0) (reassign oldAssignmentId newProfessionalId why user)
               (fun r s => s = s0 /\ exists m, r = Returned (Status500 m))).
  { intros w Hnone. exact (H (db w) Hnone w eq_refl). }
  intros s0 Hnone. unfold reassign.
  apply hoare_try_catch with
    (R := fun r s => s = s0 /\ forall x, r <> Returned x).
  - apply hoare_bind with (R := fun _ s => s = s0).
    + apply hoare_supabase; [|now intros s m <-|now intros s m <-].
      intros s <-. cbn [snd].
      fold (with_status oldAssignmentId reassigned (patient_assignments s0)).
      rewrite (with_status_absent _ _ _ Hnone). apply store_eta.
    + intros _.
      apply hoare_bind with
        (R := fun r s => (forall rep, r = Returned rep -> error rep <> None) /\ s = s0).
      * apply hoare_supabase.
        -- intros s ->. split; [|reflexivity]. intros rep [= <-]. cbn [fst].
           fold (assignments_with oldAssignmentId (patient_assignments s0)).
           rewrite Hnone. discriminate.
        -- intros s m ->. split; [|reflexivity]. now intros rep [= <-].
        -- intros s m ->. split; [|reflexivity]. discriminate.
      * intros old. apply hoare_assume. intros Herr. specialize (Herr old eq_refl).
        destruct (error old) as [e|]; [|contradiction].
        apply hoare_throw. intros s ->. split; [reflexivity | discriminate].
      * intros m s [_ ->]. split; [reflexivity | discriminate].
    + intros m s ->. split; [reflexivity | discriminate].
  - intros a s [_ H]. now destruct (H a).
  - intros m. apply hoare_ret. intros s [-> _]. split; [reflexivity | now exists m].
Qed.

Lemma reassign_unknown_id_witness :
  assignments_with 5 (patient_assignments (db (calm full_day))) = [] /\
  db (snd (reassign 5 8 None 1 (calm full_day))) = db (calm full_day).
Proof.
  split; [reflexivity|].
  exact (proj1 (reassign_unknown_id 5 8 None 1 (calm full_day) eq_refl)).
Defined.

Lemma reassign_reads_old (oldAssignmentId : Id) (w : World) (old : Assignment) :
  carried_out 2 w ->
  assignments_with oldAssignmentId (patient_assignments (db w)) = [old] ->
  let closed :=
    {| patients := patients (db w);
       working_hours := working_hours (db w);
       patient_assignments :=
         with_status oldAssignmentId reassigned (patient_assignments (db w));
       schedules := schedules (db w);
       next_id := next_id (db w) |} in
  bind (update_status oldAssignmentId reassigned)
       (fun _ => select_assignment oldAssignmentId) w =
  (Returned {| data := Some {| assignment_id := assignment_id old;
                               a_patient_id := a_patient_id old;
                               a_professional_id := a_professional_id old;
                               assigned_by_id := assigned_by_id old;
                               assignment_reason := assignment_reason old;
                               scheduled_visit_date := scheduled_visit_date old;
                               scheduled_visit_time := scheduled_visit_time old;
                               status := reassigned |};
               error := None |},
   {| db := closed; plan := tl (tl (plan w)) |}).
Proof.
  intros Hplan Hold closed. unfold bind, update_status, select_assignment.
  match goal with
  | |- context [supabase ?q w] =>
      destruct (supabase_carried_out q w 1 Hplan) as [Hcall1 Hplan1]
  end.
  rewrite Hcall1. cbn [fst snd] in *.
  match goal with
  | |- context [supabase ?q ?w1] =>
      destruct (supabase_carried_out q w1 0 Hplan1) as [Hcall2 _]
  end.
  rewrite Hcall2. cbn [fst snd db plan patient_assignments].
  fold (with_status oldAssignmentId reassigned (patient_assignments (db w))).
  fold (assignments_with oldAssignmentId
          (with_status oldAssignmentId reassigned (patient_assignments (db w)))).
  rewrite with_status_selected, Hold. reflexivity.
Qed.

(** X22. A reassignment that goes through closes the old assignment and
    opens a new one: when the three store calls go through and the id
    names one assignment, the handler answers with the new row, and the
    assignment table is the old one with that assignment marked
    "reassigned", followed by an active row for the same patient and the
    new professional, under the next free id, with the given reason (or
    "Reassignment") and without visit date or time. *)
Theorem reassign_success (oldAssignmentId newProfessionalId : Id)
    (why : option string) (user : Id) (w : World) (old : Assignment) :
  carried_out 3 w ->
  assignments_with oldAssignmentId (patient_assignments (db w)) = [old] ->
  let row := successor_row (db w) old newProfessionalId why user in
  reassign oldAssignmentId newProfessionalId why user w =
  (Returned (Json (Some row)),
   {| db := {| patients := patients (db w);
               working_hours := working_hours (db w);
               patient_assignments :=
                 (with_status oldAssignmentId reassigned (patient_assignments (db w))
                  ++ [row])%list;
               schedules := schedules (db w);
               next_id := S (next_id (db w)) |};
      plan := skipn 3 (plan w) |}).
Proof.
  intros Hplan Hold row.
  pose proof (reassign_reads_old oldAssignmentId w old
                (fun i Hi => Hplan i ltac:(lia)) Hold) as Hread.
  cbv zeta in Hread. unfold bind in Hread.
  unfold reassign, try_catch, bind.
  destruct (update_status oldAssignmentId reassigned w) as [[u|m] w1];
    [|discriminate].
  rewrite Hread. cbn [error data a_patient_id].
  unfold insert_assignment.
  match goal with
  | |- context [supabase ?q ?w2] =>
      assert (Hplan2 : carried_out 1 w2);
      [|destruct (supabase_carried_out q w2 0 Hplan2) as [Hcall3 _]]
  end.
  { intros i Hi. specialize (Hplan (2 + i)%nat ltac:(lia)). cbn [plan].
    destruct (plan w) as [|o1 [|o2 l]]; cbn in *;
      try (now destruct i); exact Hplan. }
  rewrite Hcall3. cbn [fst snd single error data db plan].
  unfold ret. f_equal.
  cbn [patients working_hours patient_assignments schedules next_id].
  f_equal. destruct (plan w) as [|o1 [|o2 [|o3 l]]]; reflexivity.
Qed.

Lemma reassign_success_witness :
  let w := snd (TimeSlotOptimizer.smartAssignPatient 1 7 monday None (calm full_day)) in
  carried_out 3 w /\
  map status (patient_assignments (db (snd (reassign 100 8 None 1 w))))
    = [reassigned; active].
Proof.
  intros w.
  assert (Hplan : carried_out 3 w) by (intros [|[|[|i]]] _; reflexivity).
  split; [exact Hplan|].
  rewrite (reassign_success 100 8 None 1 w
             (visit_row full_day 1 7 monday None "08:00") Hplan eq_refl).
  reflexivity.
Defined.

(** X23. The two writes of a reassignment are not undone together: when
    the first two store calls go through, the id names one assignment,
    and the insert of the new row reports an error or is rejected, the
    handler answers with a 500 response carrying that message, and the
    old assignment stays marked "reassigned" with no new row added. *)
Theorem reassign_insert_failure (oldAssignmentId newProfessionalId : Id)
    (why : option string) (user : Id) (w : World) (old : Assignment) (m : string) :
  carried_out 2 w ->
  assignments_with oldAssignmentId (patient_assignments (db w)) = [old] ->
  nth 2 (plan w) Done = Failed m \/ nth 2 (plan w) Done = Rejected m ->
  fst (reassign oldAssignmentId newProfessionalId why user w)
    = Returned (Status500 m) /\
  patient_assignments (db (snd (reassign oldAssignmentId newProfessionalId why user w)))
    = with_status oldAssignmentId reassigned (patient_assignments (db w)).
Proof.
  intros Hplan Hold Hthird.
  pose proof (reassign_reads_old oldAssignmentId w old Hplan Hold) as Hread.
  cbv zeta in Hread. unfold bind in Hread.
  unfold reassign, try_catch, bind.
  destruct (update_status oldAssignmentId reassigned w) as [[u|e] w1];
    [|discriminate].
  rewrite Hread. cbn [error data a_patient_id].
  unfold insert_assignment, supabase. cbn [plan db].
  destruct (plan w) as [|o1 [|o2 [|o3 rest]]];
    try (destruct Hthird as [H | H]; discriminate H).
  cbn [nth tl] in *.
  destruct Hthird as [-> | ->]; cbn [error data fst snd db patient_assignments];
    now split.
Qed.

Lemma reassign_insert_failure_witness :
  let w := {| db := db (snd (TimeSlotOptimizer.smartAssignPatient 1 7 monday None
                               (calm full_day)));
              plan := [Done; Done; Failed "insert failed"] |} in
  carried_out 2 w /\
  fst (reassign 100 8 None 1 w) = Returned (Status500 "insert failed") /\
  map status (patient_assignments (db (snd (reassign 100 8 None 1 w))))
    = [reassigned].
Proof.
  intros w.
  assert (Hplan : carried_out 2 w) by (intros [|[|i]] Hi; [reflexivity.. | lia]).
  split; [exact Hplan|].
  destruct (reassign_insert_failure 100 8 None 1 w
              (visit_row full_day 1 7 monday None "08:00") "insert failed"
              Hplan eq_refl (or_introl eq_refl)) as [Hr Hdb].
  split; [exact Hr|]. rewrite Hdb. reflexivity.
Defined.

End ReassignMore.

(** * Further properties of the skill matcher *)

Section SkillMatchMore.

Import TimeSlotOptimizer.

Lemma checkSkillMatch_formula (care : string) (specs : list Specialization) :
  checkSkillMatch (Some care) (Some specs) =
  negb (String.eqb care "") && negb (Nat.eqb (length specs) 0) &&
  (existsb (fun spec => String.eqb spec (JS.toLowerCase care))
     (map (fun s => JS.toLowerCase (specialization s)) specs)
   || scan_care_types (JS.toLowerCase care)
        (map (fun s => JS.toLowerCase (specialization s)) specs)
        CARE_SPECIALTY_MAP).
Proof.
  unfold checkSkillMatch.
  destruct (String.eqb care ""), (Nat.eqb (length specs) 0); cbn [orb negb andb];
    reflexivity.
Qed.

(** X24. More specializations never lose a match: if a professional's
    specializations satisfy a care need, so does every list that contains
    them, in any order and with any additions. *)
Theorem checkSkillMatch_monotone (care : option string)
    (specs specs' : list Specialization) :
  (forall s, In s specs -> In s specs') ->
  checkSkillMatch care (Some specs) = true ->
  checkSkillMatch care (Some specs') = true.
Proof.
  intros Hsub. destruct care as [care|]; [|discriminate].
  rewrite !checkSkillMatch_formula.
  intros H. apply andb_true_iff in H as [H Hmatch].
  apply andb_true_iff in H as [Hcare Hlen].
  rewrite Hcare. cbn [andb].
  assert (Hmap : forall p, In p (map (fun s => JS.toLowerCase (specialization s)) specs) ->
                           In p (map (fun s => JS.toLowerCase (specialization s)) specs')).
  { intros p Hp. apply in_map_iff in Hp as (s & <- & Hs).
    apply in_map_iff. exists s. split; [reflexivity | now apply Hsub]. }
  apply andb_true_iff. split.
  - destruct specs as [|s0 specs]; [discriminate|].
    destruct specs' as [|s1 specs']; [|reflexivity].
    now destruct (Hsub s0 (or_introl eq_refl)).
  - apply orb_true_iff in Hmatch as [Hexact | Hscan]; apply orb_true_iff.
    + left. apply existsb_exists in Hexact as (p & Hp & Heq).
      apply existsb_exists. exists p. split; [now apply Hmap | exact Heq].
    + right. apply scan_care_types_true_iff in Hscan
        as (k & vs & v & p & Hin & Hk & Hv & Hp & Hrel).
      apply scan_care_types_true_iff. exists k, vs, v, p.
      repeat split; try assumption. now apply Hmap.
Qed.

Lemma checkSkillMatch_monotone_witness :
  checkSkillMatch (Some "wound care") (Some [{| specialization := "Nursing Care" |}])
    = true /\
  checkSkillMatch (Some "wound care")
    (Some [{| specialization := "Cardiology" |};
           {| specialization := "Nursing Care" |}]) = true.
Proof.
  assert (H : checkSkillMatch (Some "wound care")
                (Some [{| specialization := "Nursing Care" |}]) = true)
    by reflexivity.
  split; [exact H|].
  apply (checkSkillMatch_monotone (Some "wound care")
           [{| specialization := "Nursing Care" |}]); [|exact H].
  intros s [<- | []]. right. now left.
Defined.

Lemma toLowerCase_empty (s : string) : JS.toLowerCase s = "" <-> s = "".
Proof. destruct s; cbn; split; congruence. Qed.

(** X25. Matching ignores letter case on both sides: two care needs that
    differ only in case, against two lists of specializations that differ
    only in case, get the same answer. *)
Theorem checkSkillMatch_ignores_case (care care' : string)
    (specs specs' : list Specialization) :
  JS.toLowerCase care = JS.toLowerCase care' ->
  map (fun s => JS.toLowerCase (specialization s)) specs
    = map (fun s => JS.toLowerCase (specialization s)) specs' ->
  checkSkillMatch (Some care) (Some specs) = checkSkillMatch (Some care') (Some specs').
Proof.
  intros Hcare Hspecs. rewrite !checkSkillMatch_formula, Hcare, Hspecs.
  assert (Hempty : String.eqb care "" = String.eqb care' "").
  { destruct (String.eqb care "") eqn:E1, (String.eqb care' "") eqn:E2;
      try reflexivity.
    - apply String.eqb_eq in E1. apply String.eqb_neq in E2. subst care.
      cbn in Hcare. symmetry in Hcare.
      apply (proj1 (toLowerCase_empty _)) in Hcare. contradiction.
    - apply String.eqb_eq in E2. apply String.eqb_neq in E1. subst care'.
      cbn in Hcare. apply (proj1 (toLowerCase_empty _)) in Hcare. contradiction. }
  assert (Hlen : length specs = length specs').
  { apply (f_equal (@length string)) in Hspecs.
    now rewrite !List.length_map in Hspecs. }
  now rewrite Hempty, Hlen.
Qed.

Lemma checkSkillMatch_ignores_case_witness :
  JS.toLowerCase "WOUND CARE" = JS.toLowerCase "Wound Care" /\
  checkSkillMatch (Some "WOUND CARE") (Some [{| specialization := "nursing care" |}])
  = checkSkillMatch (Some "Wound Care") (Some [{| specialization := "NURSING CARE" |}]).
Proof.
  split; [reflexivity|].
  now apply checkSkillMatch_ignores_case.
Defined.

Lemma care_types_have_specializations careType validSpecs :
  In (careType, validSpecs) CARE_SPECIALTY_MAP -> validSpecs <> [].
Proof.
  assert (H : Forall (fun e => snd e <> []) CARE_SPECIALTY_MAP)
    by (repeat constructor; discriminate).
  intros Hin. exact (proj1 (List.Forall_forall _ _) H _ Hin).
Qed.

(** X26. An empty specialization label matches too much: a professional
    with an empty label satisfies every care need that mentions one of
    the care types of the table, because the empty string occurs in every
    valid specialization. *)
Theorem checkSkillMatch_empty_label (care : string) (specs : list Specialization)
    (careType : string) (validSpecs : list string) :
  In (careType, validSpecs) CARE_SPECIALTY_MAP ->
  ci_substring careType care ->
  In {| specialization := "" |} specs ->
  checkSkillMatch (Some care) (Some specs) = true.
Proof.
  intros Hentry Hsub Hempty. rewrite checkSkillMatch_formula.
  assert (Hcare : String.eqb care "" = false).
  { apply String.eqb_neq. intros ->. destruct Hsub as (pre & post & H).
    rewrite (care_types_lower_case _ _ Hentry) in H. cbn in H.
    destruct pre; [|discriminate].
    rewrite append_empty in H.
    destruct careType; [|discriminate].
    revert Hentry. unfold CARE_SPECIALTY_MAP. cbn [In].
    intros Hin. repeat (destruct Hin as [Hin | Hin]; [discriminate|]).
    contradiction. }
  rewrite Hcare. destruct specs as [|s0 specs]; [contradiction|].
  cbn [length Nat.eqb negb andb].
  apply orb_true_iff. right. apply scan_care_types_true_iff.
  destruct validSpecs as [|v vs] eqn:Hvs;
    [now destruct (care_types_have_specializations _ _ Hentry)|].
  exists careType, (v :: vs), v, "".
  split; [exact Hentry|]. split.
  - unfold ci_substring in Hsub. now rewrite (care_types_lower_case _ _ Hentry) in Hsub.
  - split; [now left|]. split.
    + apply in_map_iff. now exists {| specialization := "" |}.
    + right. now exists "", (JS.toLowerCase v).
Qed.

Lemma checkSkillMatch_empty_label_witness :
  In ("cardiac care", ["Cardiac Care"; "Cardiology"; "Cardiovascular Assessment"])
     CARE_SPECIALTY_MAP /\
  checkSkillMatch (Some "Cardiac care, weekly")
    (Some [{| specialization := "" |}]) = true.
Proof.
  assert (Hentry : In ("cardiac care",
                       ["Cardiac Care"; "Cardiology"; "Cardiovascular Assessment"])
                      CARE_SPECIALTY_MAP)
    by (cbn; tauto).
  split; [exact Hentry|].
  apply (checkSkillMatch_empty_label _ _ _ _ Hentry); [|now left].
  now exists "", ", weekly".
Defined.

End SkillMatchMore.
